(** * gpflow.conditionals.mo_sample_conditionals

    A shallow embedding of the [_sample_conditional] variant registered for
    [(object, MixedKernelSharedMof, SeparateMixedMok, object)], together with
    the tensor contraction it performs and the collaborators it calls. *)

From Stdlib Require Import String.
From Stdlib Require Import List ZArith Bool Arith Lia.
From Stdlib Require Floats.
Import ListNotations.
Local Open Scope string_scope.
Local Open Scope nat_scope.
Local Open Scope list_scope.

Set Implicit Arguments.

(** ** Scalars

    Tensor entries.  The code runs on floating-point numbers; the embedding is
    stated over any carrier with a zero, a one, an addition and a
    multiplication, and laws are required only by the results that use them. *)

Class Scalar : Type := {
  scalar : Type;
  s_zero : scalar;
  s_one : scalar;
  s_add : scalar -> scalar -> scalar;
  s_mul : scalar -> scalar -> scalar
}.

(** Which scalars are finite and which are zeros.  Floating-point numbers
    have infinities and a not-a-number besides the finite values, and two
    zeros, which compare equal. *)
Class Classified (S : Scalar) : Type := {
  finite : scalar -> Prop;
  is_zero : scalar -> Prop
}.

(** Equal as numbers: the same scalar, or two zeros. *)
Definition same_number {S : Scalar} {K : Classified S} (x y : scalar) : Prop :=
  x = y \/ (is_zero x /\ is_zero y).

(** What multiplying by one, multiplying a finite scalar by a zero and adding
    a zero do.  These are laws of IEEE 754 arithmetic; nothing is asked of
    the product of an infinity and a zero. *)
Class SignedZeroLaws {S : Scalar} (K : Classified S) : Prop := {
  zero_is_zero : is_zero s_zero;
  zero_finite : forall z : scalar, is_zero z -> finite z;
  mul_one_r : forall x : scalar, s_mul x s_one = x;
  mul_one_l : forall x : scalar, s_mul s_one x = x;
  mul_zero_r : forall x z : scalar, finite x -> is_zero z -> is_zero (s_mul x z);
  mul_zero_l : forall x z : scalar, finite x -> is_zero z -> is_zero (s_mul z x);
  add_zero_r : forall x z : scalar, is_zero z -> same_number (s_add x z) x;
  add_zero_l : forall x z : scalar, is_zero z -> same_number (s_add z x) x
}.

(** ** Exceptions and results *)

Inductive exn : Type :=
| NotImplementedError (msg : string)
| DispatchError
| ShapeMismatchError
| CollaboratorError (msg : string).

Inductive result (A : Type) : Type :=
| Ok (a : A)
| Raise (e : exn).

Arguments Ok {A} a.
Arguments Raise {A} e.

(** ** Tensors: a shape and the entries in row-major order *)

Section Tensors.
Context {S : Scalar}.

Record Tensor : Type := mkTensor {
  shape : list nat;
  data : list scalar
}.

Definition prod (sh : list nat) : nat := fold_right Nat.mul 1 sh.

Definition wf_tensor (t : Tensor) : Prop := length (data t) = prod (shape t).

(** Row-major position of a multi-index, by Horner's rule from [acc]. *)
Definition horner (acc : nat) (sh idx : list nat) : nat :=
  fold_left (fun a ni => a * fst ni + snd ni) (combine sh idx) acc.

Definition offset (sh idx : list nat) : nat := horner 0 sh idx.

Definition in_range (idx sh : list nat) : Prop := Forall2 lt idx sh.

Definition get (t : Tensor) (idx : list nat) : scalar :=
  nth (offset (shape t) idx) (data t) s_zero.

Definition sum_list (l : list scalar) : scalar := fold_right s_add s_zero l.

(** [Σ_{l < n} g l] *)
Definition sum_over (n : nat) (g : nat -> scalar) : scalar :=
  sum_list (map g (seq 0 n)).

(** The [i]-th row of a flat buffer seen as a matrix with [k] columns. *)
Definition row (k : nat) (d : list scalar) (i : nat) : list scalar :=
  firstn k (skipn (i * k) d).

Definition dot_with (f : scalar -> scalar -> scalar) (u v : list scalar) : scalar :=
  sum_list (map (fun xy => f (fst xy) (snd xy)) (combine u v)).

(** Contraction of the last axis of [a] with the last axis of [b], the
    summand for entries [x] of [a] and [y] of [b] being [f x y].  The result
    has the free axes of [a] followed by the free axes of [b]; the last axes
    must have the same extent. *)
Definition contract_last (f : scalar -> scalar -> scalar) (a b : Tensor)
  : result Tensor :=
  match shape a, shape b with
  | [], _ | _, [] => Raise ShapeMismatchError
  | _ :: _, _ :: _ =>
      let k := last (shape a) 0 in
      if k =? last (shape b) 0 then
        let free_a := removelast (shape a) in
        let free_b := removelast (shape b) in
        Ok {| shape := free_a ++ free_b;
              data := flat_map
                        (fun i => map (fun j => dot_with f (row k (data a) i)
                                                         (row k (data b) j))
                                      (seq 0 (prod free_b)))
                        (seq 0 (prod free_a)) |}
      else Raise ShapeMismatchError
  end.

(** [tf.tensordot(a, b, [[-1], [-1]])]: TensorFlow's tensor contraction, at
    the only axes argument this module passes. *)
Definition tensordot (a b : Tensor) : result Tensor := contract_last s_mul a b.

(** The [n] by [n] identity matrix. *)
Definition eye (n : nat) : Tensor :=
  {| shape := [n; n];
     data := flat_map (fun i => map (fun j => if i =? j then s_one else s_zero)
                                    (seq 0 n))
                      (seq 0 n) |}.

End Tensors.

Section Numbers.
Context {S : Scalar} {K : Classified S}.

(** The same shape and, entry by entry, the same numbers. *)
Definition same_tensor (a b : Tensor) : Prop :=
  shape a = shape b /\ Forall2 same_number (data a) (data b).

(** A summand that keeps its first argument at weight one and is a zero at
    weight zero when that argument is finite. *)
Definition unit_weight (f : scalar -> scalar -> scalar) : Prop :=
  (forall x, f x s_one = x) /\ (forall x, finite x -> is_zero (f x s_zero)).

End Numbers.

(** ** Python classes

    The module imports [MixedKernelSharedMof] and [SeparateIndependentMof]
    from [..features], [SeparateIndependentMok] and [SeparateMixedMok] from
    [..kernels], and uses the builtin [object].  Their declarations are not
    part of this module, so the class hierarchy is a parameter. *)

Class ClassHierarchy : Type := {
  pyclass : Type;
  pyclass_eqb : pyclass -> pyclass -> bool;
  issubclass : pyclass -> pyclass -> bool;
  object : pyclass;
  MixedKernelSharedMof : pyclass;
  SeparateIndependentMof : pyclass;
  SeparateIndependentMok : pyclass;
  SeparateMixedMok : pyclass
}.

Class ClassHierarchyLaws (H : ClassHierarchy) : Prop := {
  pyclass_eqb_eq : forall a b : pyclass, pyclass_eqb a b = true <-> a = b;
  issubclass_refl : forall a : pyclass, issubclass a a = true;
  issubclass_object : forall a : pyclass, issubclass a object = true
}.

(** A Python value together with its runtime class. *)
Record pyobj {H : ClassHierarchy} (A : Type) : Type := PyObj {
  type_of : pyclass;
  value : A
}.

Arguments PyObj {H A} type_of value.
Arguments type_of {H A} p.
Arguments value {H A} p.

(** ** The dispatch registry *)

Section Registry.
Context {H : ClassHierarchy}.
Variable I : Type.

(** A tuple of classes: the runtime types of a call, or a registered pattern. *)
Definition signature : Type := list pyclass.

Definition registry : Type := list (signature * I).

Fixpoint signature_eqb (p q : signature) : bool :=
  match p, q with
  | [], [] => true
  | a :: p', b :: q' => pyclass_eqb a b && signature_eqb p' q'
  | _, _ => false
  end.

(** The pattern with the wildcard of section 4.1 of the spec, which the
    module writes [object], in each of the four slots. *)
Definition wildcard_only : signature := [object; object; object; object].

(** Modelled from the spec: when a registered pattern matches a tuple of
    runtime types (section 4.1): slot by slot, the runtime type is the
    pattern's class or a subtype of it, so the wildcard matches everything.
    The dispatcher's own matching code is not among the sources. *)
Fixpoint matches (types pattern : signature) : bool :=
  match types, pattern with
  | [], [] => true
  | t :: types', c :: pattern' => issubclass t c && matches types' pattern'
  | _, _ => false
  end.

(** [a] is a proper subclass of [b]. *)
Definition strictly_below (a b : pyclass) : bool :=
  issubclass a b && negb (issubclass b a).

(** Modelled from the spec: the specificity ranking of section 4.1, "the most
    specific matching registered implementation", with the design notes'
    "exact > wildcard, leftmost slot breaks ties": [p] outranks [q] when, at
    the leftmost slot where the class of one is a proper subclass of the
    class of the other, the subclass is [p]'s.  The wildcard [object] is the
    root of the hierarchy, so any other class in a slot outranks it, and the
    class of the runtime type itself outranks each of its bases.  The
    dispatcher's own ranking is not among the sources. *)
Fixpoint outranks (p q : signature) : bool :=
  match p, q with
  | a :: p', b :: q' =>
      if strictly_below a b then true
      else if strictly_below b a then false
      else outranks p' q'
  | _, _ => false
  end.

(** The best matching entry so far, scanning the registry in registration
    order; an entry replaces the current best only if it outranks it. *)
Fixpoint best_match (reg : registry) (types : signature)
                    (cur : option (signature * I)) : option (signature * I) :=
  match reg with
  | [] => cur
  | (p, i) :: rest =>
      if matches types p then
        match cur with
        | None => best_match rest types (Some (p, i))
        | Some (q, _) =>
            if outranks p q then best_match rest types (Some (p, i))
            else best_match rest types cur
        end
      else best_match rest types cur
  end.

(** Modelled from the spec: [dispatch(t1, t2, t3, t4) -> implementation] of
    section 4.1, the most specific matching registered implementation, [None]
    when no pattern matches.  The dispatcher ([conditional] and
    [sample_conditional] of [.dispatch]) is not among the sources. *)
Definition dispatch (reg : registry) (types : signature) : option I :=
  option_map snd (best_match reg types None).

(** Modelled from the spec: [register(op, t1, t2, t3, t4) -> implementation]
    of section 4.1, which associates a pattern with an implementation; an
    earlier entry for the same pattern is replaced.  The dispatcher is not
    among the sources. *)
Definition register (reg : registry) (pattern : signature) (impl : I) : registry :=
  filter (fun e => negb (signature_eqb (fst e) pattern)) reg ++ [(pattern, impl)].

(** Registrations made one after the other. *)
Definition register_all (reg : registry) (entries : list (signature * I)) : registry :=
  fold_left (fun r e => register r (fst e) (snd e)) entries reg.

End Registry.

(** ** Values and collaborators of the module *)

(** Feature representations and kernels are opaque, apart from the mixing
    matrix [kern.W]; [rng_state] is the state of the random generator that
    [sample_mvn] draws from. *)
Class Objects {S : Scalar} : Type := {
  Feature : Type;
  Kernel : Type;
  W : Kernel -> Tensor;
  rng_state : Type
}.

Section Collab.
Context {S : Scalar} {H : ClassHierarchy} {O : Objects}.

(** An implementation of [conditional(Xnew, feat, kern, f, *, white, q_sqrt)],
    returning the pair [(mu, var)]. *)
Definition conditional_fn : Type :=
  pyobj Tensor -> pyobj Feature -> pyobj Kernel -> pyobj Tensor ->
  bool -> option Tensor -> result (Tensor * Tensor).

End Collab.

(** The names the module imports from [.dispatch] and [.util]. *)
Class Collaborators {S : Scalar} {H : ClassHierarchy} {O : Objects} : Type := {
  conditional : registry conditional_fn;
  sample_mvn : Tensor -> Tensor -> string -> option nat ->
               rng_state -> result Tensor * rng_state;
  mix_latent_gp : Tensor -> Tensor -> Tensor -> bool -> bool ->
                  result (Tensor * Tensor)
}.

(** ** Calls observed during a run, and the monad that records them *)

Section Effects.
Context {S : Scalar} {H : ClassHierarchy} {O : Objects} {C : Collaborators}.

Inductive event : Type :=
| EvLogDebug (msg : string)
| EvDispatch (types : signature)
| EvConditional (impl : conditional_fn)
                (Xnew : pyobj Tensor) (feat : pyobj Feature)
                (kern : pyobj Kernel) (f : pyobj Tensor)
                (white : bool) (q_sqrt : option Tensor)
| EvSampleMvn (mu var : Tensor) (cov_structure : string) (num_samples : option nat)
| EvMixLatentGp (W_ mu var : Tensor) (full_cov full_output_cov : bool)
| EvTensordot (a b : Tensor).

Record state : Type := mkState {
  trace : list event;
  rng : rng_state
}.

Definition M (A : Type) : Type := state -> result A * state.

Definition ret {A} (a : A) : M A := fun s => (Ok a, s).

Definition bind {A B} (m : M A) (k : A -> M B) : M B :=
  fun s => match m s with
           | (Ok a, s') => k a s'
           | (Raise e, s') => (Raise e, s')
           end.

Definition raise {A} (e : exn) : M A := fun s => (Raise e, s).

Definition emit (ev : event) : M unit :=
  fun s => (Ok tt, {| trace := trace s ++ [ev]; rng := rng s |}).

Definition lift {A} (r : result A) : M A := fun s => (r, s).

End Effects.

Declare Scope monad_scope.
Delimit Scope monad_scope with monad.
Notation "x <- c ;; k" := (bind c (fun x => k))
  (at level 61, c at next level, right associativity) : monad_scope.
Notation "' pat <- c ;; k" := (bind c (fun x => match x with pat => k end))
  (at level 61, pat pattern, c at next level, right associativity) : monad_scope.
Notation "c ;; k" := (bind c (fun _ => k))
  (at level 61, right associativity) : monad_scope.
Local Open Scope monad_scope.

Section Variant.
Context {S : Scalar} {H : ClassHierarchy} {O : Objects} {C : Collaborators}.

Definition logger_debug (msg : string) : M unit := emit (EvLogDebug msg).

(** [conditional.dispatch] applied to a tuple of classes.  A lookup that no
    registered pattern matches fails with [DispatchError], as section 4.1 of
    the spec has it. *)
Definition conditional_dispatch (types : signature) : M conditional_fn :=
  emit (EvDispatch types) ;;
  match dispatch conditional types with
  | Some impl => ret impl
  | None => raise DispatchError
  end.

Definition call_conditional (impl : conditional_fn)
    (Xnew : pyobj Tensor) (feat : pyobj Feature) (kern : pyobj Kernel)
    (f : pyobj Tensor) (white : bool) (q_sqrt : option Tensor)
  : M (Tensor * Tensor) :=
  emit (EvConditional impl Xnew feat kern f white q_sqrt) ;;
  lift (impl Xnew feat kern f white q_sqrt).

Definition call_sample_mvn (mu var : Tensor) (cov_structure : string)
    (num_samples : option nat) : M Tensor :=
  emit (EvSampleMvn mu var cov_structure num_samples) ;;
  fun s => let (r, g) := sample_mvn mu var cov_structure num_samples (rng s) in
           (r, {| trace := trace s; rng := g |}).

Definition call_mix_latent_gp (W_ mu var : Tensor)
    (full_cov full_output_cov : bool) : M (Tensor * Tensor) :=
  emit (EvMixLatentGp W_ mu var full_cov full_output_cov) ;;
  lift (mix_latent_gp W_ mu var full_cov full_output_cov).

Definition call_tensordot (a b : Tensor) : M Tensor :=
  emit (EvTensordot a b) ;;
  lift (tensordot a b).

(** The type tuple of line 30. *)
Definition independent_signature : signature :=
  [object; SeparateIndependentMof; SeparateIndependentMok; object].

(** The pattern of the decorator on line 12. *)
Definition variant_signature : signature :=
  [object; MixedKernelSharedMof; SeparateMixedMok; object].

Definition _sample_conditional
    (Xnew : pyobj Tensor) (feat : pyobj Feature) (kern : pyobj Kernel)
    (f : pyobj Tensor)
    (full_cov full_output_cov : bool) (q_sqrt : option Tensor)
    (white : bool) (num_samples : option nat)
  : M (Tensor * Tensor * Tensor) :=
  logger_debug "(MixedKernelSharedMof, MixedKernelSeparateMof), SeparateMixedMok" ;;
  (if full_cov
   then raise (NotImplementedError "full_cov not yet implemented")
   else ret tt) ;;
  (if full_output_cov
   then raise (NotImplementedError "full_output_cov not yet implemented")
   else ret tt) ;;
  ind_conditional <- conditional_dispatch independent_signature ;;
  '(g_mu, g_var) <- call_conditional ind_conditional Xnew feat kern f white q_sqrt ;;
  g_sample <- call_sample_mvn g_mu g_var "diag" num_samples ;;
  '(f_mu, f_var) <- call_mix_latent_gp (W (value kern)) g_mu g_var
                                      full_cov full_output_cov ;;
  f_sample <- call_tensordot g_sample (W (value kern)) ;;
  ret (f_sample, f_mu, f_var).

(** The implementations of [sample_conditional], and the decorator of
    line 12 applied to a table of them. *)
Definition sample_conditional_fn : Type :=
  pyobj Tensor -> pyobj Feature -> pyobj Kernel -> pyobj Tensor ->
  bool -> bool -> option Tensor -> bool -> option nat ->
  M (Tensor * Tensor * Tensor).

Definition sample_conditional_register (table : registry sample_conditional_fn)
  : registry sample_conditional_fn :=
  register table variant_signature _sample_conditional.

End Variant.

(** ** The collaborators of [.util], from their documented contracts *)

Section Models.
Context {S : Scalar}.

(** The summand [W[p,l]^2 * var[..., l]] of the mixed variance, for an entry
    [v] of the variance and an entry [w] of the mixing matrix. *)
Definition squared_weight (v w : scalar) : scalar := s_mul (s_mul w w) v.

(** Modelled from the spec: the Mixing Transform of section 4.3 in diag mode,
    [f_mu = mu @ W^T] and, for each output [p],
    [f_var[..., p] = Σ_l W[p,l]^2 * var[..., l]].  [mix_latent_gp] of [.util]
    is not among the sources. *)
Definition mixing_transform (W_ mu var : Tensor) : result (Tensor * Tensor) :=
  match tensordot mu W_ with
  | Ok f_mu =>
      match contract_last squared_weight var W_ with
      | Ok f_var => Ok (f_mu, f_var)
      | Raise e => Raise e
      end
  | Raise e => Raise e
  end.

(** Modelled from the spec: [mix_latent_gp(W, mu, var, full_cov,
    full_output_cov) -> (f_mu, f_var)] of section 6.  The spec gives the
    transform in diag mode only; the full-covariance modes are the parameter
    [full_modes].  [mix_latent_gp] of [.util] is not among the sources. *)
Definition mix_latent_gp_model
    (full_modes : Tensor -> Tensor -> Tensor -> bool -> bool ->
                  result (Tensor * Tensor))
    (W_ mu var : Tensor) (full_cov full_output_cov : bool)
  : result (Tensor * Tensor) :=
  if full_cov || full_output_cov
  then full_modes W_ mu var full_cov full_output_cov
  else mixing_transform W_ mu var.

(** The optional sample-count axis [(S)]. *)
Definition sample_axis (num_samples : option nat) : list nat :=
  match num_samples with
  | Some n => [n]
  | None => []
  end.

(** A source of standard normal draws: a stream and the position of the next
    draw. *)
Record noise_source : Type := mkNoise {
  noise : nat -> scalar;
  cursor : nat
}.

Definition draw (n : nat) (g : noise_source) : list scalar * noise_source :=
  (map (noise g) (seq (cursor g) n),
   {| noise := noise g; cursor := cursor g + n |}).

(** Modelled from the spec: [sample_mvn(mu, var, cov_structure_tag,
    num_samples) -> sample] of sections 4.2 and 6.  With tag ["diag"] the
    sample is [mu + sqrt(var) * eps] entry by entry, with fresh [eps] for each
    of the [num_samples] replicas, which lie along a new axis in front of the
    last two; the result has shape [[..., (S), N, L]].  The spec does not give
    the algorithm of the other tags, which is the parameter [other_tags].
    [sample_mvn] of [.util] is not among the sources. *)
Definition sample_mvn_model
    (sqrt : scalar -> scalar)
    (other_tags : Tensor -> Tensor -> string -> option nat ->
                  noise_source -> result Tensor * noise_source)
    (mu var : Tensor) (cov_structure : string) (num_samples : option nat)
    (g : noise_source) : result Tensor * noise_source :=
  if (cov_structure =? "diag")%string then
    let sh := shape mu in
    if (2 <=? length sh) && (if list_eq_dec Nat.eq_dec sh (shape var)
                              then true else false) then
      let leading := firstn (length sh - 2) sh in
      let inner := skipn (length sh - 2) sh in
      let replicas := match num_samples with Some n => n | None => 1 end in
      let block := prod inner in
      let (eps, g') := draw (prod leading * replicas * block) g in
      (Ok {| shape := leading ++ sample_axis num_samples ++ inner;
             data :=
               flat_map
                 (fun b =>
                    flat_map
                      (fun r =>
                         map (fun j =>
                                s_add (nth (b * block + j) (data mu) s_zero)
                                      (s_mul (sqrt (nth (b * block + j) (data var) s_zero))
                                             (nth ((b * replicas + r) * block + j) eps s_zero)))
                             (seq 0 block))
                      (seq 0 replicas))
                 (seq 0 (prod leading)) |},
       g')
    else (Raise ShapeMismatchError, g)
  else other_tags mu var cov_structure num_samples g.

End Models.

(** The environment in which the collaborators of [.util] are the ones
    modelled above: the random generator is a [noise_source], [sample_mvn]
    is [sample_mvn_model] and [mix_latent_gp] is [mix_latent_gp_model]. *)
Definition model_objects {S : Scalar} (Feature_ Kernel_ : Type)
    (W_ : Kernel_ -> Tensor) : Objects :=
  {| Feature := Feature_; Kernel := Kernel_; W := W_;
     rng_state := noise_source |}.

Arguments model_objects {S} Feature_ Kernel_ W_.

Definition model_collaborators {S : Scalar} {H : ClassHierarchy}
    (Feature_ Kernel_ : Type) (W_ : Kernel_ -> Tensor)
    (table : registry (conditional_fn (O := model_objects Feature_ Kernel_ W_)))
    (sqrt : scalar -> scalar)
    (other_tags : Tensor -> Tensor -> string -> option nat ->
                  noise_source -> result Tensor * noise_source)
    (full_modes : Tensor -> Tensor -> Tensor -> bool -> bool ->
                  result (Tensor * Tensor))
  : Collaborators (O := model_objects Feature_ Kernel_ W_) :=
  {| conditional := table;
     sample_mvn := sample_mvn_model sqrt other_tags;
     mix_latent_gp := mix_latent_gp_model full_modes |}.

Arguments model_collaborators {S H} Feature_ Kernel_ W_
  table sqrt other_tags full_modes.

(** ** A concrete environment, for running the definitions *)

Definition Z_scalar : Scalar :=
  {| scalar := Z; s_zero := 0%Z; s_one := 1%Z; s_add := Z.add; s_mul := Z.mul |}.

Inductive gp_class : Type :=
| c_object
| c_ndarray
| c_MixedKernelSharedMof
| c_SeparateIndependentMof
| c_MixedKernelSeparateMof
| c_SeparateIndependentMok
| c_SeparateMixedMok.

Definition gp_class_eqb (a b : gp_class) : bool :=
  match a, b with
  | c_object, c_object
  | c_ndarray, c_ndarray
  | c_MixedKernelSharedMof, c_MixedKernelSharedMof
  | c_SeparateIndependentMof, c_SeparateIndependentMof
  | c_MixedKernelSeparateMof, c_MixedKernelSeparateMof
  | c_SeparateIndependentMok, c_SeparateIndependentMok
  | c_SeparateMixedMok, c_SeparateMixedMok => true
  | _, _ => false
  end.

(** Every class derives from [object]; [MixedKernelSeparateMof] derives from
    [SeparateIndependentMof]. *)
Definition gp_issubclass (a b : gp_class) : bool :=
  gp_class_eqb a b
  || gp_class_eqb b c_object
  || (gp_class_eqb a c_MixedKernelSeparateMof
      && gp_class_eqb b c_SeparateIndependentMof).

Definition gp_hierarchy : ClassHierarchy :=
  {| pyclass := gp_class;
     pyclass_eqb := gp_class_eqb;
     issubclass := gp_issubclass;
     object := c_object;
     MixedKernelSharedMof := c_MixedKernelSharedMof;
     SeparateIndependentMof := c_SeparateIndependentMof;
     SeparateIndependentMok := c_SeparateIndependentMok;
     SeparateMixedMok := c_SeparateMixedMok |}.

(** Features carry nothing here and a kernel is its mixing matrix. *)
Definition gp_objects : Objects (S := Z_scalar) :=
  {| Feature := unit;
     Kernel := Tensor (S := Z_scalar);
     W := fun k => k;
     rng_state := noise_source (S := Z_scalar) |}.

(** A stand-in for the independent conditional: the mean is the value of [f]
    and the variance the value of [Xnew]. *)
Definition example_conditional
  : conditional_fn (S := Z_scalar) (H := gp_hierarchy) (O := gp_objects) :=
  fun Xnew _ _ f _ _ => Ok (value f, value Xnew).

(** A stand-in for a generic fallback implementation. *)
Definition fallback_conditional
  : conditional_fn (S := Z_scalar) (H := gp_hierarchy) (O := gp_objects) :=
  fun _ _ _ _ _ _ => Raise (CollaboratorError "fallback").

Definition unavailable {A B C D E F : Type} (msg : string)
  : A -> B -> C -> D -> E -> result F * E :=
  fun _ _ _ _ e => (Raise (CollaboratorError msg), e).

Definition gp_collaborators
  : Collaborators (S := Z_scalar) (H := gp_hierarchy) (O := gp_objects) :=
  {| conditional :=
       register (H := gp_hierarchy)
         (register (H := gp_hierarchy) []
            [c_object; c_object; c_object; c_object] fallback_conditional)
         [c_object; c_SeparateIndependentMof; c_SeparateIndependentMok; c_object]
         example_conditional;
     sample_mvn := sample_mvn_model (S := Z_scalar) Z.sqrt (unavailable "full");
     mix_latent_gp :=
       mix_latent_gp_model (S := Z_scalar)
         (fun _ _ _ _ _ => Raise (CollaboratorError "full covariance")) |}.

(** The stream -2, -1, 0, 1, 2, -2, ... read from its start. *)
Definition example_noise : noise_source (S := Z_scalar) :=
  @mkNoise Z_scalar (fun n => (Z.of_nat n mod 5 - 2)%Z) 0.

Definition tensorZ (sh : list nat) (d : list Z) : Tensor (S := Z_scalar) :=
  @mkTensor Z_scalar sh d.

Definition example_state
  : state (S := Z_scalar) (H := gp_hierarchy) (O := gp_objects) :=
  @mkState Z_scalar gp_hierarchy gp_objects [] example_noise.

(** Three query points with two latents; [f] carries the means and [Xnew]
    the variances that [example_conditional] hands back. *)
Definition example_Xnew : pyobj (H := gp_hierarchy) (Tensor (S := Z_scalar)) :=
  @PyObj gp_hierarchy _ c_ndarray (tensorZ [3; 2] [4; 9; 16; 25; 36; 49]%Z).

Definition example_f : pyobj (H := gp_hierarchy) (Tensor (S := Z_scalar)) :=
  @PyObj gp_hierarchy _ c_ndarray (tensorZ [3; 2] [1; 2; 3; 4; 5; 6]%Z).

Definition example_feat : pyobj (H := gp_hierarchy) (Feature (Objects := gp_objects)) :=
  @PyObj gp_hierarchy _ c_MixedKernelSharedMof tt.

(** A kernel mixing two latents into three outputs. *)
Definition example_kern : pyobj (H := gp_hierarchy) (Kernel (Objects := gp_objects)) :=
  @PyObj gp_hierarchy _ c_SeparateMixedMok (tensorZ [3; 2] [1; 2; 3; 4; 5; 6]%Z).

(** A kernel whose mixing matrix is the identity on two latents. *)
Definition identity_kern : pyobj (H := gp_hierarchy) (Kernel (Objects := gp_objects)) :=
  @PyObj gp_hierarchy _ c_SeparateMixedMok (tensorZ [2; 2] [1; 0; 0; 1]%Z).

(** The moments that [example_conditional] returns on the examples, and their
    mixture by the matrix of [example_kern]. *)
Definition example_g_mu : Tensor (S := Z_scalar) :=
  tensorZ [3; 2] [1; 2; 3; 4; 5; 6]%Z.

Definition example_g_var : Tensor (S := Z_scalar) :=
  tensorZ [3; 2] [4; 9; 16; 25; 36; 49]%Z.

Definition example_f_mu : Tensor (S := Z_scalar) :=
  tensorZ [3; 3] [5; 11; 17; 11; 25; 39; 17; 39; 61]%Z.

Definition example_f_var : Tensor (S := Z_scalar) :=
  tensorZ [3; 3] [40; 180; 424; 116; 544; 1300; 232; 1108; 2664]%Z.

(** Two replicas of the latent sample drawn from [example_noise]. *)
Definition example_g_sample : Tensor (S := Z_scalar) :=
  tensorZ [2; 3; 2] [-3; -1; 3; 9; 17; -8; -1; 2; 7; 14; -7; -1]%Z.

(** Environments in which one of the later steps fails. *)

(** Only the fallback is registered, so the lookup of line 30 resolves to an
    implementation that raises. *)
Definition fallback_collaborators
  : Collaborators (S := Z_scalar) (H := gp_hierarchy) (O := gp_objects) :=
  {| conditional :=
       register (H := gp_hierarchy) []
         [c_object; c_object; c_object; c_object] fallback_conditional;
     sample_mvn := sample_mvn_model (S := Z_scalar) Z.sqrt (unavailable "full");
     mix_latent_gp :=
       mix_latent_gp_model (S := Z_scalar)
         (fun _ _ _ _ _ => Raise (CollaboratorError "full covariance")) |}.

(** Variances of another shape than the means of [example_f]. *)
Definition mismatched_Xnew : pyobj (H := gp_hierarchy) (Tensor (S := Z_scalar)) :=
  @PyObj gp_hierarchy _ c_ndarray (tensorZ [2; 2] [4; 9; 16; 25]%Z).

(** A kernel whose mixing matrix has three latent columns, one more than the
    moments of the examples. *)
Definition wide_kern : pyobj (H := gp_hierarchy) (Kernel (Objects := gp_objects)) :=
  @PyObj gp_hierarchy _ c_SeparateMixedMok (tensorZ [2; 3] [1; 2; 3; 4; 5; 6]%Z).

(** The sample that [sample_mvn_model] draws for [example_g_mu] and
    [example_g_var] from [example_noise] when no count is asked for. *)
Definition example_single_sample : Tensor (S := Z_scalar) :=
  tensorZ [3; 2] [-3; -1; 3; 9; 17; -8]%Z.

(** A state whose generator has already given seven draws. *)
Definition later_state
  : state (S := Z_scalar) (H := gp_hierarchy) (O := gp_objects) :=
  @mkState Z_scalar gp_hierarchy gp_objects []
    (@mkNoise Z_scalar (fun n => (Z.of_nat n mod 5 - 2)%Z) 7).

(** The samples returned for [example_kern] from [example_state] with two
    replicas, and from [later_state] with no count. *)
Definition example_f_sample : Tensor (S := Z_scalar) :=
  tensorZ [2; 3; 3]
    [-5; -13; -21; 21; 45; 69; 1; 19; 37; 3; 5; 7; 35; 77; 119; -9; -25; -41]%Z.

Definition later_f_sample : Tensor (S := Z_scalar) :=
  tensorZ [3; 3] [11; 23; 35; -1; 9; 19; 11; 21; 31]%Z.

(** ** The carrier the program runs on: binary64 floating-point numbers *)

Definition float_scalar : Scalar :=
  {| scalar := PrimFloat.float;
     s_zero := PrimFloat.zero;
     s_one := PrimFloat.one;
     s_add := PrimFloat.add;
     s_mul := PrimFloat.mul |}.

(** A zero or a finite non-zero number: no infinity and no not-a-number. *)
Definition float_finite (x : PrimFloat.float) : Prop :=
  match FloatOps.Prim2SF x with
  | SpecFloat.S754_zero _ | SpecFloat.S754_finite _ _ _ => True
  | _ => False
  end.

(** One of the two zeros. *)
Definition float_is_zero (x : PrimFloat.float) : Prop :=
  match FloatOps.Prim2SF x with
  | SpecFloat.S754_zero _ => True
  | _ => False
  end.

Definition float_classified : Classified float_scalar :=
  @Build_Classified float_scalar float_finite float_is_zero.

Definition tensorF (sh : list nat) (d : list PrimFloat.float)
  : Tensor (S := float_scalar) :=
  @mkTensor float_scalar sh d.

(** The modelled collaborators at this carrier; as in [example_conditional],
    the mean is the value of [f] and the variance the value of [Xnew]. *)
Definition float_objects : Objects (S := float_scalar) :=
  model_objects unit (Tensor (S := float_scalar)) (fun k => k).

Definition float_conditional
  : conditional_fn (S := float_scalar) (H := gp_hierarchy) (O := float_objects) :=
  fun Xnew _ _ f _ _ => Ok (value f, value Xnew).

Definition float_collaborators
  : Collaborators (S := float_scalar) (H := gp_hierarchy) (O := float_objects) :=
  model_collaborators (S := float_scalar) (H := gp_hierarchy)
    unit (Tensor (S := float_scalar)) (fun k => k)
    (register (H := gp_hierarchy) []
       [c_object; c_SeparateIndependentMof; c_SeparateIndependentMok; c_object]
       float_conditional)
    PrimFloat.sqrt (unavailable "full")
    (fun _ _ _ _ _ => Raise (CollaboratorError "full covariance")).

(** The stream 1, -2, 1, -2, ... read from its start. *)
Definition float_noise : noise_source (S := float_scalar) :=
  @mkNoise float_scalar
    (fun n => if Nat.even n then PrimFloat.one
              else PrimFloat.opp PrimFloat.two) 0.

Definition float_state
  : state (S := float_scalar) (H := gp_hierarchy) (O := float_objects) :=
  @mkState float_scalar gp_hierarchy float_objects [] float_noise.

Definition float_feat : pyobj (H := gp_hierarchy) unit :=
  @PyObj gp_hierarchy _ c_MixedKernelSharedMof tt.

(** A kernel whose mixing matrix is the identity on two latents. *)
Definition float_identity_kern
  : pyobj (H := gp_hierarchy) (Tensor (S := float_scalar)) :=
  @PyObj gp_hierarchy _ c_SeparateMixedMok
    (tensorF [2; 2] [PrimFloat.one; PrimFloat.zero;
                     PrimFloat.zero; PrimFloat.one]).

(** Finite moments for two query points, one mean being the negative zero,
    and the sample drawn for them from [float_noise]. *)
Definition finite_g_mu : Tensor (S := float_scalar) :=
  tensorF [2; 2] [PrimFloat.one; PrimFloat.opp PrimFloat.two;
                  PrimFloat.zero; PrimFloat.neg_zero].

Definition finite_g_var : Tensor (S := float_scalar) :=
  tensorF [2; 2] [PrimFloat.one; PrimFloat.zero;
                  PrimFloat.mul PrimFloat.two PrimFloat.two; PrimFloat.zero].

Definition finite_g_sample : Tensor (S := float_scalar) :=
  tensorF [2; 2] [PrimFloat.two; PrimFloat.opp PrimFloat.two;
                  PrimFloat.two; PrimFloat.neg_zero].

(** Moments for one query point whose first mean is infinite, and the sample
    drawn for them from [float_noise]. *)
Definition infinite_g_mu : Tensor (S := float_scalar) :=
  tensorF [1; 2] [PrimFloat.infinity; PrimFloat.opp PrimFloat.one].

Definition infinite_g_var : Tensor (S := float_scalar) :=
  tensorF [1; 2] [PrimFloat.zero; PrimFloat.zero].

Definition infinite_g_sample : Tensor (S := float_scalar) :=
  tensorF [1; 2] [PrimFloat.infinity; PrimFloat.opp PrimFloat.one].

(** What the identity makes of [infinite_g_sample]. *)
Definition infinite_f_sample : Tensor (S := float_scalar) :=
  tensorF [1; 2] [PrimFloat.infinity; PrimFloat.nan].

(** * Facts *)

(** ** Row-major indexing and contraction *)

Section TensorFacts.
Context {S : Scalar}.

Lemma prod_app (a b : list nat) : prod (a ++ b) = prod a * prod b.
Proof.
  induction a as [|n a IH].
  - unfold prod; simpl. lia.
  - change (prod ((n :: a) ++ b)) with (n * prod (a ++ b)).
    change (prod (n :: a)) with (n * prod a). rewrite IH. lia.
Qed.

Lemma prod_single (k : nat) : prod [k] = k.
Proof. unfold prod; simpl. lia. Qed.

Lemma horner_shift (idx sh : list nat) :
  in_range idx sh ->
  forall acc, horner acc sh idx = acc * prod sh + horner 0 sh idx.
Proof.
  induction 1 as [|i n idx sh Hlt Hr IH]; intros acc.
  - unfold horner, prod; simpl. lia.
  - unfold horner in *. simpl.
    rewrite (IH (acc * n + i)), (IH i).
    change (prod (n :: sh)) with (n * prod sh). lia.
Qed.

Lemma offset_app (idx jdx sa sb : list nat) :
  in_range idx sa -> in_range jdx sb ->
  offset (sa ++ sb) (idx ++ jdx) = offset sa idx * prod sb + offset sb jdx.
Proof.
  intros Ha Hb. unfold offset, horner.
  assert (Hc : combine (sa ++ sb) (idx ++ jdx) = combine sa idx ++ combine sb jdx).
  { clear Hb. induction Ha; simpl; [reflexivity | f_equal; assumption]. }
  rewrite Hc, fold_left_app.
  exact (horner_shift Hb _).
Qed.

Lemma offset_bound (idx sh : list nat) :
  in_range idx sh -> offset sh idx < prod sh.
Proof.
  intros Hr. unfold offset, horner.
  enough (G : forall acc m, acc < m ->
              fold_left (fun a ni => a * fst ni + snd ni) (combine sh idx) acc
              < m * prod sh).
  { specialize (G 0 1). lia. }
  induction Hr as [|i n idx sh Hlt Hr IH]; intros acc m Hacc.
  - unfold prod; simpl. lia.
  - simpl. change (prod (n :: sh)) with (n * prod sh).
    rewrite Nat.mul_assoc. apply IH. simpl. nia.
Qed.

Lemma offset_last (idx sa : list nat) (k l : nat) :
  in_range idx sa -> l < k ->
  offset (sa ++ [k]) (idx ++ [l]) = offset sa idx * k + l.
Proof.
  intros Ha Hl. rewrite offset_app.
  - rewrite prod_single. unfold offset, horner; simpl. lia.
  - assumption.
  - constructor; [assumption | constructor].
Qed.

(** Entries of a buffer laid out as rows of equal length. *)
Lemma nth_rows (q : nat) (g : nat -> nat -> scalar) (d : scalar) :
  forall m start i j, i < m -> j < q ->
  nth (i * q + j) (flat_map (fun i => map (g i) (seq 0 q)) (seq start m)) d
  = g (start + i) j.
Proof.
  induction m as [|m IH]; intros start i j Hi Hj; [lia|].
  simpl. destruct i as [|i].
  - rewrite app_nth1 by (rewrite length_map, length_seq; lia).
    simpl. rewrite nth_indep with (d' := g start 0)
      by (rewrite length_map, length_seq; lia).
    rewrite map_nth, seq_nth by lia. f_equal; lia.
  - rewrite app_nth2 by (rewrite length_map, length_seq; simpl; lia).
    rewrite length_map, length_seq.
    replace (Datatypes.S i * q + j - q) with (i * q + j) by (simpl; lia).
    rewrite IH by lia. f_equal; lia.
Qed.

Lemma length_rows (q : nat) (g : nat -> nat -> scalar) :
  forall m start,
  length (flat_map (fun i => map (g i) (seq 0 q)) (seq start m)) = m * q.
Proof.
  induction m as [|m IH]; intros start; simpl; [reflexivity|].
  rewrite length_app, length_map, length_seq, IH. reflexivity.
Qed.

Lemma length_row (k : nat) (d : list scalar) (i : nat) :
  (i + 1) * k <= length d -> length (row k d i) = k.
Proof.
  intros Hl. unfold row. rewrite length_firstn, length_skipn. lia.
Qed.

Lemma nth_row (k : nat) (d : list scalar) (i l : nat) (z : scalar) :
  l < k -> nth l (row k d i) z = nth (i * k + l) d z.
Proof.
  intros Hl. unfold row. rewrite nth_firstn.
  destruct (Nat.ltb_spec l k) as [_|Hge]; [|lia].
  apply nth_skipn.
Qed.

Lemma dot_with_nth (f : scalar -> scalar -> scalar) (z : scalar) :
  forall (u v : list scalar) k, length u = k -> length v = k ->
  dot_with f u v = sum_over k (fun l => f (nth l u z) (nth l v z)).
Proof.
  unfold dot_with, sum_over.
  induction u as [|x u IH]; intros v k Hu Hv.
  - simpl in Hu. subst k. reflexivity.
  - destruct v as [|y v]; simpl in Hu, Hv; [lia|].
    subst k. simpl. f_equal.
    rewrite <- seq_shift, map_map. apply (IH v (length u)); lia.
Qed.

(** A contraction succeeds when the last axes agree, and keeps the free axes. *)
Lemma contract_last_shape (f : scalar -> scalar -> scalar) (a b : Tensor)
      (fa fb : list nat) (k : nat) :
  shape a = fa ++ [k] -> shape b = fb ++ [k] ->
  exists c, contract_last f a b = Ok c /\ shape c = fa ++ fb.
Proof.
  intros Ha Hb. unfold contract_last. rewrite Ha, Hb.
  destruct (fa ++ [k]) as [|x xs] eqn:Ea; [destruct fa; discriminate|].
  destruct (fb ++ [k]) as [|y ys] eqn:Eb; [destruct fb; discriminate|].
  rewrite <- Ea, <- Eb, !last_last, !removelast_last, Nat.eqb_refl.
  eexists. split; reflexivity.
Qed.

(** The entry of a contraction at a multi-index of the free axes. *)
Lemma contract_last_get (f : scalar -> scalar -> scalar) (a b : Tensor)
      (fa fb idx jdx : list nat) (k : nat) :
  shape a = fa ++ [k] -> shape b = fb ++ [k] ->
  wf_tensor a -> wf_tensor b ->
  in_range idx fa -> in_range jdx fb ->
  exists c,
    contract_last f a b = Ok c /\
    shape c = fa ++ fb /\
    get c (idx ++ jdx)
    = sum_over k (fun l => f (get a (idx ++ [l])) (get b (jdx ++ [l]))).
Proof.
  intros Ha Hb Hwa Hwb Hi Hj.
  unfold contract_last. rewrite Ha, Hb.
  destruct (fa ++ [k]) as [|x xs] eqn:Ea; [destruct fa; discriminate|].
  destruct (fb ++ [k]) as [|y ys] eqn:Eb; [destruct fb; discriminate|].
  rewrite <- Ea, <- Eb, !last_last, !removelast_last, Nat.eqb_refl.
  rewrite <- Ea in Ha. rewrite <- Eb in Hb.
  eexists. split; [reflexivity|]. split; [reflexivity|].
  unfold get at 1. simpl.
  pose proof (offset_bound Hi) as Bi. pose proof (offset_bound Hj) as Bj.
  rewrite (offset_app Hi Hj).
  rewrite (nth_rows (q := prod fb)
             (fun i j => dot_with f (row k (data a) i) (row k (data b) j)))
    by assumption.
  simpl.
  unfold wf_tensor in Hwa, Hwb. rewrite Ha, prod_app, prod_single in Hwa.
  rewrite Hb, prod_app, prod_single in Hwb.
  rewrite (@dot_with_nth f s_zero _ _ k).
  - unfold sum_over. f_equal. apply map_ext_in. intros l Hl.
    apply in_seq in Hl. unfold get. rewrite Ha, Hb.
    rewrite !offset_last by (assumption || lia).
    rewrite !nth_row by lia. reflexivity.
  - apply length_row. nia.
  - apply length_row. nia.
Qed.

(** *** Contraction with the identity matrix *)

Lemma row_rows (q : nat) (g : nat -> nat -> scalar) (m i : nat) :
  i < m ->
  row q (flat_map (fun i => map (g i) (seq 0 q)) (seq 0 m)) i
  = map (g i) (seq 0 q).
Proof.
  intros Hi.
  apply nth_ext with (d := s_zero) (d' := s_zero).
  - rewrite length_row, length_map, length_seq; [reflexivity|].
    rewrite length_rows. nia.
  - intros n Hn.
    rewrite length_row in Hn by (rewrite length_rows; nia).
    rewrite nth_row, nth_rows by assumption.
    rewrite nth_indep with (d' := g i 0)
      by (rewrite length_map, length_seq; assumption).
    rewrite map_nth, seq_nth by assumption. reflexivity.
Qed.

Lemma concat_rows (k : nat) :
  forall m (d : list scalar), length d = m * k ->
  flat_map (fun i => row k d i) (seq 0 m) = d.
Proof.
  induction m as [|m IH]; intros d Hd.
  - destruct d; [reflexivity | discriminate].
  - simpl. rewrite <- seq_shift, flat_map_concat_map, map_map,
      <- flat_map_concat_map.
    rewrite (flat_map_ext _ (fun i => row k (skipn k d) i)).
    + rewrite IH by (rewrite length_skipn; simpl in Hd; lia).
      unfold row. simpl. apply firstn_skipn.
    + intros i. unfold row. rewrite skipn_skipn. f_equal. f_equal. simpl. lia.
Qed.

Lemma flat_map_ext_seq (A : Type) (f g : nat -> list A) (m : nat) :
  (forall i, i < m -> f i = g i) ->
  flat_map f (seq 0 m) = flat_map g (seq 0 m).
Proof.
  intros E. rewrite !flat_map_concat_map. f_equal.
  apply map_ext_in. intros i Hi. apply in_seq in Hi. apply E. lia.
Qed.

End TensorFacts.

(** ** Contraction with the identity matrix *)

Section IdentityFacts.
Context {S : Scalar} {K : Classified S} (Laws : SignedZeroLaws K).

Lemma same_number_refl (x : scalar) : same_number x x.
Proof. left. reflexivity. Qed.

Lemma zero_plus_zero (z r : scalar) : is_zero z -> is_zero r -> is_zero (s_add z r).
Proof.
  intros Hz Hr. destruct (add_zero_l r z Hz) as [E | [H0 _]].
  - rewrite E. exact Hr.
  - exact H0.
Qed.

(** Adding a zero in front of a sum leaves the number it stands for. *)
Lemma same_number_zero_plus (z r y : scalar) :
  is_zero z -> same_number r y -> same_number (s_add z r) y.
Proof.
  intros Hz [-> | [Hr Hy]].
  - apply add_zero_l. exact Hz.
  - right. split; [apply zero_plus_zero; assumption | exact Hy].
Qed.

(** The product of a row with a unit vector is the entry the unit vector
    picks, and a zero when it picks none. *)
Lemma dot_with_unit (f : scalar -> scalar -> scalar) :
  unit_weight f ->
  forall (u : list scalar) start j,
    Forall finite u ->
    let d := dot_with f u (map (fun l => if j =? l then s_one else s_zero)
                               (seq start (length u))) in
    (start <= j < start + length u ->
     same_number d (nth (j - start) u s_zero)) /\
    (~ (start <= j < start + length u) -> is_zero d).
Proof.
  intros [F1 F0]. unfold dot_with.
  induction u as [|x u IH]; intros start j Hfin.
  - simpl. split; [lia | intros _; apply zero_is_zero].
  - inversion Hfin as [|? ? Hx Hu]; subst.
    destruct (IH (Datatypes.S start) j Hu) as [Hin Hout].
    cbn [length seq map combine fst snd sum_list fold_right] in *.
    destruct (Nat.eqb_spec j start) as [->|Hne].
    + rewrite F1. split.
      * intros _. rewrite Nat.sub_diag. simpl.
        apply add_zero_r. apply Hout. lia.
      * intros Hn. exfalso. apply Hn. lia.
    + split.
      * intros Hr.
        replace (j - start) with (Datatypes.S (j - Datatypes.S start)) by lia.
        simpl. apply same_number_zero_plus; [apply F0; exact Hx|].
        apply Hin. lia.
      * intros Hn. apply zero_plus_zero; [apply F0; exact Hx|].
        apply Hout. lia.
Qed.

Lemma Forall2_flat_map_seq (A : Type) (R : A -> A -> Prop)
      (f g : nat -> list A) (m : nat) :
  (forall i, i < m -> Forall2 R (f i) (g i)) ->
  Forall2 R (flat_map f (seq 0 m)) (flat_map g (seq 0 m)).
Proof.
  intros E.
  assert (G : forall l, (forall i, In i l -> i < m) ->
              Forall2 R (flat_map f l) (flat_map g l)).
  { induction l as [|i l IH]; intros Hl; simpl; [constructor|].
    apply Forall2_app; [apply E, Hl; left; reflexivity|].
    apply IH. intros i' Hi'. apply Hl. right. exact Hi'. }
  apply G. intros i Hi. apply in_seq in Hi. lia.
Qed.

Lemma Forall2_map_seq (A : Type) (R : A -> A -> Prop) (f g : nat -> A) (k : nat) :
  (forall j, j < k -> R (f j) (g j)) ->
  Forall2 R (map f (seq 0 k)) (map g (seq 0 k)).
Proof.
  intros E.
  assert (G : forall l, (forall j, In j l -> j < k) ->
              Forall2 R (map f l) (map g l)).
  { induction l as [|j l IH]; intros Hl; simpl; constructor.
    - apply E, Hl. left. reflexivity.
    - apply IH. intros j' Hj'. apply Hl. right. exact Hj'. }
  apply G. intros j Hj. apply in_seq in Hj. lia.
Qed.

Lemma Forall_row (P : scalar -> Prop) (k : nat) (d : list scalar) (i : nat) :
  Forall P d -> Forall P (row k d i).
Proof.
  intros Hd. rewrite Forall_forall in *. intros x Hx. apply Hd.
  unfold row in Hx.
  rewrite <- (firstn_skipn (i * k) d). apply in_or_app. right.
  rewrite <- (firstn_skipn k (skipn (i * k) d)). apply in_or_app. left.
  exact Hx.
Qed.

Lemma map_nth_all (A : Type) (d : A) (l : list A) :
  map (fun j => nth j l d) (seq 0 (length l)) = l.
Proof.
  induction l as [|x l IH]; simpl; [reflexivity|].
  f_equal. rewrite <- seq_shift, map_map. exact IH.
Qed.

(** Contracting a well-formed tensor of finite entries with the identity
    gives the same numbers back. *)
Lemma contract_last_eye (f : scalar -> scalar -> scalar)
      (a : Tensor) (fa : list nat) (k : nat) :
  unit_weight f ->
  shape a = fa ++ [k] -> wf_tensor a -> Forall finite (data a) ->
  exists c, contract_last f a (eye k) = Ok c /\ same_tensor c a.
Proof.
  intros Hf Ha Hw Hfin. unfold contract_last. rewrite Ha.
  destruct (fa ++ [k]) as [|x xs] eqn:Ea; [destruct fa; discriminate|].
  rewrite <- Ea. rewrite <- Ea in Ha. clear Ea x xs.
  change (shape (eye k)) with ([k] ++ [k]).
  rewrite !last_last, !removelast_last, Nat.eqb_refl, prod_single.
  eexists. split; [reflexivity|].
  unfold same_tensor. cbn [shape data]. split; [symmetry; exact Ha|].
  unfold wf_tensor in Hw. rewrite Ha, prod_app, prod_single in Hw.
  match goal with
  | |- Forall2 _ ?lhs _ =>
      enough (G : Forall2 same_number lhs
                    (flat_map (fun i => row k (data a) i) (seq 0 (prod fa))))
        by (rewrite (concat_rows k (prod fa) (data a) Hw) in G; exact G)
  end.
  apply Forall2_flat_map_seq. intros i Hi.
  assert (Hlen : length (row k (data a) i) = k) by (apply length_row; nia).
  assert (Hrow : row k (data a) i
                 = map (fun j => nth j (row k (data a) i) s_zero) (seq 0 k)).
  { pose proof (map_nth_all s_zero (row k (data a) i)) as E.
    rewrite Hlen in E. symmetry. exact E. }
  match goal with
  | |- Forall2 _ ?lhs _ =>
      enough (G : Forall2 same_number lhs
                    (map (fun j => nth j (row k (data a) i) s_zero) (seq 0 k)))
        by (rewrite <- Hrow in G; exact G)
  end.
  apply Forall2_map_seq. intros j Hj.
  unfold eye. cbn [data]. rewrite row_rows by exact Hj.
  pose proof (@dot_with_unit f Hf (row k (data a) i) 0 j
                (@Forall_row finite k (data a) i Hfin)) as [Hin _].
  rewrite Hlen, Nat.sub_0_r in Hin. apply Hin. lia.
Qed.

End IdentityFacts.

(** ** What a contraction returns *)

Section ContractionFacts.
Context {S : Scalar}.

(** What a contraction returns is well formed, whatever its arguments. *)
Lemma contract_last_wf (f : scalar -> scalar -> scalar) (a b c : Tensor) :
  contract_last f a b = Ok c ->
  wf_tensor c /\ shape c = removelast (shape a) ++ removelast (shape b).
Proof.
  unfold contract_last.
  destruct (shape a) as [|x xs] eqn:Ea; [discriminate|].
  destruct (shape b) as [|y ys] eqn:Eb; [discriminate|].
  destruct (last (x :: xs) 0 =? last (y :: ys) 0); [|discriminate].
  intros E. inversion E; subst c; clear E. split; [|reflexivity].
  unfold wf_tensor. cbn [data shape].
  rewrite length_rows, prod_app. reflexivity.
Qed.

(** A contraction of last axes of different extents fails. *)
Lemma contract_last_mismatch (f : scalar -> scalar -> scalar) (a b : Tensor)
      (fa fb : list nat) (k k' : nat) :
  shape a = fa ++ [k] -> shape b = fb ++ [k'] -> k <> k' ->
  contract_last f a b = Raise ShapeMismatchError.
Proof.
  intros Ha Hb Hk. unfold contract_last. rewrite Ha, Hb.
  destruct (fa ++ [k]) as [|x xs] eqn:Ea; [destruct fa; discriminate|].
  destruct (fb ++ [k']) as [|y ys] eqn:Eb; [destruct fb; discriminate|].
  rewrite <- Ea, <- Eb, !last_last.
  destruct (Nat.eqb_spec k k'); [contradiction | reflexivity].
Qed.

End ContractionFacts.

(** ** The registry *)

Section RegistryFacts.
Context {H : ClassHierarchy} (Laws : ClassHierarchyLaws H).
Variable I : Type.

(** What the scan returns is the current best or a registered entry, and its
    pattern matches the runtime types. *)
Lemma best_match_sound (types : signature) :
  forall (reg : registry I) cur p i,
    (forall q j, cur = Some (q, j) -> matches types q = true) ->
    best_match reg types cur = Some (p, i) ->
    matches types p = true /\ (cur = Some (p, i) \/ In (p, i) reg).
Proof.
  induction reg as [|[q j] reg IH]; intros cur p i Hcur Hb; simpl in Hb.
  - split; [exact (Hcur _ _ Hb) | left; exact Hb].
  - assert (Hnew : matches types q = true ->
                   forall q' j', Some (q, j) = Some (q', j') ->
                                 matches types q' = true).
    { intros Hq q' j' E. inversion E; subst. exact Hq. }
    destruct (matches types q) eqn:Hq;
      [destruct cur as [[c k]|]; [destruct (outranks q c)|]|];
      first [ apply (IH _ _ _ (Hnew eq_refl)) in Hb
            | apply (IH _ _ _ Hcur) in Hb ];
      destruct Hb as [Hm [E | Hin]];
      (split; [exact Hm|]);
      solve [ left; exact E
            | inversion E; subst; right; left; reflexivity
            | right; right; exact Hin ].
Qed.

(** A lookup that no registered pattern matches finds nothing. *)
Lemma dispatch_no_match (types : signature) (reg : registry I) :
  Forall (fun e => matches types (fst e) = false) reg ->
  dispatch reg types = None.
Proof.
  unfold dispatch. intros Hall.
  enough (E : best_match reg types None = None) by (rewrite E; reflexivity).
  induction Hall as [|[q j] reg Hq Hall IH]; simpl; [reflexivity|].
  simpl in Hq. rewrite Hq. exact IH.
Qed.

Lemma signature_eqb_eq (p q : signature) : signature_eqb p q = true <-> p = q.
Proof.
  revert q. induction p as [|a p IH]; intros [|b q]; simpl;
    try (split; [discriminate | discriminate]); [tauto|].
  rewrite andb_true_iff, pyclass_eqb_eq, IH. split.
  - intros [-> ->]. reflexivity.
  - intros E. inversion E. auto.
Qed.

Lemma strictly_below_asym (a b : pyclass) :
  strictly_below a b = true -> strictly_below b a = false.
Proof.
  unfold strictly_below. intros Hab. apply andb_prop in Hab.
  destruct Hab as [Hab Hba]. rewrite Hab. apply andb_false_r.
Qed.

(** The ranking is a strict one: no two patterns outrank each other. *)
Lemma outranks_asym (p q : signature) :
  outranks p q = true -> outranks q p = false.
Proof.
  revert q. induction p as [|a p IH]; intros [|b q] Hpq; simpl in *;
    try reflexivity; try discriminate.
  destruct (strictly_below a b) eqn:Hab.
  - rewrite (strictly_below_asym _ _ Hab). reflexivity.
  - destruct (strictly_below b a); [discriminate|]. apply IH. exact Hpq.
Qed.

Lemma outranks_irrefl (p : signature) : outranks p p = false.
Proof.
  destruct (outranks p p) eqn:E; [|reflexivity].
  rewrite (outranks_asym _ _ E) in E. discriminate.
Qed.

(** The scan ends on a matching entry that outranks every other matching
    entry, wherever in the registry it stands. *)
Lemma best_match_most_specific (types p : signature) (impl : I) :
  matches types p = true ->
  forall (reg : registry I) cur,
    (forall q j, In (q, j) reg ->
       (q, j) = (p, impl) \/ matches types q = false \/ outranks p q = true) ->
    cur = Some (p, impl) \/
    ((cur = None \/ exists q j, cur = Some (q, j) /\ outranks p q = true) /\
     In (p, impl) reg) ->
    best_match reg types cur = Some (p, impl).
Proof.
  intros Hm. induction reg as [|[q j] reg IH]; intros cur Hall Hcur.
  - destruct Hcur as [-> | [_ []]]. reflexivity.
  - assert (Hrest : forall q' j', In (q', j') reg ->
              (q', j') = (p, impl) \/ matches types q' = false \/
              outranks p q' = true)
      by (intros q' j' Hin; apply Hall; right; exact Hin).
    cbn [best_match].
    destruct (Hall q j (or_introl eq_refl)) as [E | [Hq | Hq]].
    + inversion E; subst q j. rewrite Hm.
      destruct Hcur as [-> | [[-> | (q' & j' & -> & Ho)] _]].
      * rewrite outranks_irrefl. apply IH; auto.
      * apply IH; auto.
      * rewrite Ho. apply IH; auto.
    + rewrite Hq. apply IH; [exact Hrest|].
      destruct Hcur as [-> | [Hc [E | Hin]]]; auto.
      inversion E; subst q j. rewrite Hm in Hq. discriminate.
    + assert (Hin : cur <> Some (p, impl) -> In (p, impl) ((q, j) :: reg) ->
                    In (p, impl) reg).
      { intros _ [E | Hin]; [|exact Hin].
        inversion E; subst q j. rewrite outranks_irrefl in Hq. discriminate. }
      destruct (matches types q).
      * destruct Hcur as [-> | [[-> | (q' & j' & -> & Ho)] Hp]].
        -- rewrite (outranks_asym _ _ Hq). apply IH; auto.
        -- apply IH; [exact Hrest|]. right. split.
           ++ right. exists q, j. auto.
           ++ apply Hin; [discriminate | exact Hp].
        -- assert (Hp' : In (p, impl) reg).
           { destruct Hp as [E | Hp']; [|exact Hp'].
             inversion E; subst q j. rewrite outranks_irrefl in Hq.
             discriminate. }
           destruct (outranks q q'); apply IH; try exact Hrest; right;
             (split; [right; eauto | exact Hp']).
      * apply IH; [exact Hrest|].
        destruct Hcur as [-> | [Hc Hp]]; [left; reflexivity|].
        right. split; [exact Hc|].
        destruct Hp as [E | Hp']; [|exact Hp'].
        inversion E; subst q j. rewrite outranks_irrefl in Hq. discriminate.
Qed.

Lemma in_register (reg : registry I) (p q : signature) (i j : I) :
  In (q, j) (register reg p i) <-> (q, j) = (p, i) \/ (In (q, j) reg /\ q <> p).
Proof.
  unfold register. rewrite in_app_iff, filter_In. simpl. split.
  - intros [[Hin Hne] | [E | []]]; [right | left; auto].
    split; [exact Hin|]. intros ->.
    rewrite (proj2 (signature_eqb_eq p p) eq_refl) in Hne. discriminate.
  - intros [E | [Hin Hne]]; [right; left; auto | left].
    split; [exact Hin|].
    destruct (signature_eqb q p) eqn:Eq; [|reflexivity].
    apply signature_eqb_eq in Eq. contradiction.
Qed.

(** Later registrations of other patterns keep an entry, and add nothing but
    their own entries. *)
Lemma in_register_all (p : signature) (i : I) :
  forall (entries : list (signature * I)) (reg : registry I),
    Forall (fun e => fst e <> p) entries ->
    (In (p, i) reg -> In (p, i) (register_all reg entries)) /\
    (forall q j, In (q, j) (register_all reg entries) ->
       In (q, j) reg \/ In (q, j) entries).
Proof.
  induction entries as [|[q0 j0] entries IH]; intros reg Hne.
  - simpl. auto.
  - inversion Hne as [|? ? Hq0 Hne']; subst. simpl in Hq0.
    destruct (IH (register reg q0 j0) Hne') as [Hkeep Hfrom].
    simpl. split.
    + intros Hin. apply Hkeep. apply in_register. right. split; [exact Hin|].
      intros E. apply Hq0. symmetry. exact E.
    + intros q j Hin. destruct (Hfrom q j Hin) as [Hr | He]; [|auto].
      apply in_register in Hr. destruct Hr as [E | [Hr _]]; auto.
Qed.

(** C8.  Resolution is most-specific-match: once an implementation is
    registered for [(object, SeparateIndependentMof, SeparateIndependentMok,
    object)], that pattern outranks the wildcard-only pattern, and a dispatch
    call on runtime types whose second and third classes are subtypes of
    those returns that implementation, whether the more generic patterns
    were registered before it or after it. *)
Theorem specific_pattern_outranks_wildcard
    (before after : registry I) (impl : I) (t1 t2 t3 t4 : pyclass) :
  let target := [object; SeparateIndependentMof; SeparateIndependentMok; object] in
  let types := [t1; t2; t3; t4] in
  issubclass object SeparateIndependentMof = false ->
  issubclass t2 SeparateIndependentMof = true ->
  issubclass t3 SeparateIndependentMok = true ->
  Forall (fun e => fst e = target \/ matches types (fst e) = false \/
                   outranks target (fst e) = true) before ->
  Forall (fun e => fst e <> target /\
                   (matches types (fst e) = false \/
                    outranks target (fst e) = true)) after ->
  outranks target [object; object; object; object] = true /\
  dispatch (register_all (register before target impl) after) types = Some impl.
Proof.
  intros target types Hobj H2 H3 Hbefore Hafter. split.
  { simpl. unfold strictly_below at 1 2.
    rewrite issubclass_refl. simpl.
    unfold strictly_below. rewrite issubclass_object, Hobj. reflexivity. }
  assert (Hne : Forall (fun e : signature * I => fst e <> target) after).
  { eapply Forall_impl; [|exact Hafter]. intros e [He _]. exact He. }
  destruct (@in_register_all target impl after (register before target impl) Hne)
    as [Hkeep Hfrom].
  unfold dispatch.
  rewrite (@best_match_most_specific types target impl).
  - reflexivity.
  - subst types target. simpl. rewrite H2, H3, !issubclass_object. reflexivity.
  - intros q j Hin. destruct (Hfrom q j Hin) as [Hr | Ha].
    + apply in_register in Hr. destruct Hr as [E | [Hb Hq]]; [left; exact E|].
      rewrite Forall_forall in Hbefore.
      destruct (Hbefore _ Hb) as [E | Hrank]; [contradiction | right; exact Hrank].
    + rewrite Forall_forall in Hafter.
      destruct (Hafter _ Ha) as [_ Hrank]. right. exact Hrank.
  - right. split; [left; reflexivity|].
    apply Hkeep. apply in_register. left. reflexivity.
Qed.

End RegistryFacts.

(** ** The run of [_sample_conditional] *)

Section VariantFacts.
Context {S : Scalar} {H : ClassHierarchy} {O : Objects} {C : Collaborators}.

Ltac unfold_run :=
  unfold _sample_conditional, logger_debug, conditional_dispatch,
    call_conditional, call_sample_mvn, call_mix_latent_gp, call_tensordot,
    bind, emit, ret, raise, lift; simpl.

Ltac tidy_trace := repeat rewrite <- app_assoc; simpl.

(** The run has stopped: name its outcome, its final state and its events. *)
Ltac stopped_run :=
  do 3 eexists; tidy_trace; split; [reflexivity|]; split; [reflexivity|].


(** Each event of a listed trace comes from one of the three later calls. *)
Ltac later_events Hrest :=
  apply Hrest; simpl;
  let ev := fresh "ev" in
  let Hev := fresh "Hev" in
  intros ev Hev;
  repeat (destruct Hev as [<- | Hev]; [eauto 10 |]);
  contradiction.

(** The run when every collaborator returns. *)
Lemma run_returns
    (Xnew : pyobj Tensor) (feat : pyobj Feature) (kern : pyobj Kernel)
    (f : pyobj Tensor) (q_sqrt : option Tensor) (white : bool)
    (num_samples : option nat) (s : state)
    (ind : conditional_fn) (g_mu g_var g_sample f_mu f_var f_sample : Tensor)
    (r' : rng_state) :
  dispatch conditional independent_signature = Some ind ->
  ind Xnew feat kern f white q_sqrt = Ok (g_mu, g_var) ->
  sample_mvn g_mu g_var "diag" num_samples (rng s) = (Ok g_sample, r') ->
  mix_latent_gp (W (value kern)) g_mu g_var false false = Ok (f_mu, f_var) ->
  tensordot g_sample (W (value kern)) = Ok f_sample ->
  _sample_conditional Xnew feat kern f false false q_sqrt white num_samples s
  = (Ok (f_sample, f_mu, f_var),
     {| trace := trace s ++
          [EvLogDebug "(MixedKernelSharedMof, MixedKernelSeparateMof), SeparateMixedMok";
           EvDispatch independent_signature;
           EvConditional ind Xnew feat kern f white q_sqrt;
           EvSampleMvn g_mu g_var "diag" num_samples;
           EvMixLatentGp (W (value kern)) g_mu g_var false false;
           EvTensordot g_sample (W (value kern))];
        rng := r' |}).
Proof.
  intros Hd Hi Hs Hm Ht. unfold_run.
  rewrite Hd. simpl. rewrite Hi. simpl. rewrite Hs. simpl.
  rewrite Hm. simpl. rewrite Ht. tidy_trace. reflexivity.
Qed.

(** C1.  A call with [full_cov=True] or [full_output_cov=True] raises
    [NotImplementedError] before any computation: the only event of the run
    is the debug log entry, so the inner dispatch is never invoked, no sample
    is drawn (the random generator is untouched) and nothing is mixed. *)
Theorem unsupported_covariance_raises
    (Xnew : pyobj Tensor) (feat : pyobj Feature) (kern : pyobj Kernel)
    (f : pyobj Tensor) (full_cov full_output_cov : bool)
    (q_sqrt : option Tensor) (white : bool) (num_samples : option nat)
    (s : state) :
  full_cov = true \/ full_output_cov = true ->
  exists msg,
    _sample_conditional Xnew feat kern f full_cov full_output_cov
                        q_sqrt white num_samples s
    = (Raise (NotImplementedError msg),
       {| trace := trace s ++
            [EvLogDebug "(MixedKernelSharedMof, MixedKernelSeparateMof), SeparateMixedMok"];
          rng := rng s |}).
Proof.
  intros Hflag. unfold_run.
  destruct full_cov.
  - eexists. reflexivity.
  - destruct Hflag as [Hc | Ho]; [discriminate|]. subst full_output_cov.
    eexists. reflexivity.
Qed.

(** C9.  With both [full_cov=True] and [full_output_cov=True] the error is
    the one of [full_cov], which is checked first. *)
Theorem full_cov_checked_first
    (Xnew : pyobj Tensor) (feat : pyobj Feature) (kern : pyobj Kernel)
    (f : pyobj Tensor) (q_sqrt : option Tensor) (white : bool)
    (num_samples : option nat) (s : state) :
  fst (_sample_conditional Xnew feat kern f true true q_sqrt white num_samples s)
  = Raise (NotImplementedError "full_cov not yet implemented")
  /\ fst (_sample_conditional Xnew feat kern f true true q_sqrt white num_samples s)
     <> Raise (NotImplementedError "full_output_cov not yet implemented").
Proof.
  unfold_run. split; [reflexivity | discriminate].
Qed.

(** C4.  On the happy path the latent moments come from the implementation
    that [conditional.dispatch] resolves for [(object, SeparateIndependentMof,
    SeparateIndependentMok, object)], invoked on [(Xnew, feat, kern, f)] with
    the caller's [white] and [q_sqrt]: the lookup and the call are the second
    and third events of the run, and what the call gives decides the rest.
    If it raises, the run raises the same exception there; if it returns
    [(g_mu, g_var)], these are the moments handed to [sample_mvn] next and to
    [mix_latent_gp], and the outcome is the one of the remaining steps on
    them. *)
Theorem moments_from_independent_conditional
    (Xnew : pyobj Tensor) (feat : pyobj Feature) (kern : pyobj Kernel)
    (f : pyobj Tensor) (q_sqrt : option Tensor) (white : bool)
    (num_samples : option nat) (s : state) (ind : conditional_fn) :
  dispatch conditional
    [object; SeparateIndependentMof; SeparateIndependentMok; object] = Some ind ->
  match ind Xnew feat kern f white q_sqrt with
  | Raise e =>
      _sample_conditional Xnew feat kern f false false q_sqrt white num_samples s
      = (Raise e,
         {| trace := trace s ++
              [EvLogDebug "(MixedKernelSharedMof, MixedKernelSeparateMof), SeparateMixedMok";
               EvDispatch [object; SeparateIndependentMof;
                           SeparateIndependentMok; object];
               EvConditional ind Xnew feat kern f white q_sqrt];
            rng := rng s |})
  | Ok (g_mu, g_var) =>
      exists rest,
        _sample_conditional Xnew feat kern f false false q_sqrt white num_samples s
        = (match fst (sample_mvn g_mu g_var "diag" num_samples (rng s)) with
           | Raise e => Raise e
           | Ok g_sample =>
               match mix_latent_gp (W (value kern)) g_mu g_var false false with
               | Raise e => Raise e
               | Ok (f_mu, f_var) =>
                   match tensordot g_sample (W (value kern)) with
                   | Raise e => Raise e
                   | Ok f_sample => Ok (f_sample, f_mu, f_var)
                   end
               end
           end,
           {| trace := trace s ++
                [EvLogDebug "(MixedKernelSharedMof, MixedKernelSeparateMof), SeparateMixedMok";
                 EvDispatch [object; SeparateIndependentMof;
                             SeparateIndependentMok; object];
                 EvConditional ind Xnew feat kern f white q_sqrt;
                 EvSampleMvn g_mu g_var "diag" num_samples] ++ rest;
              rng := snd (sample_mvn g_mu g_var "diag" num_samples (rng s)) |})
  end.
Proof.
  intros Hd. fold independent_signature in Hd. unfold_run. rewrite Hd. simpl.
  destruct (ind Xnew feat kern f white q_sqrt) as [[g_mu g_var]|e]; simpl.
  2:{ tidy_trace. reflexivity. }
  destruct (sample_mvn g_mu g_var "diag" num_samples (rng s))
    as [[g_sample|e] r']; simpl.
  2:{ exists []. tidy_trace. reflexivity. }
  destruct (mix_latent_gp (W (value kern)) g_mu g_var false false)
    as [[f_mu f_var]|e]; simpl.
  2:{ eexists. tidy_trace. reflexivity. }
  destruct (tensordot g_sample (W (value kern))) as [f_sample|e]; simpl;
    eexists; tidy_trace; reflexivity.
Qed.


(** C2.  On the happy path the returned sample is the contraction of the
    latent sample with the mixing matrix along the latent axis:
    [f_sample[..., p] = Σ_l g_sample[..., l] * W[p, l]]. *)
Theorem f_sample_is_contraction
    (Xnew : pyobj Tensor) (feat : pyobj Feature) (kern : pyobj Kernel)
    (f : pyobj Tensor) (q_sqrt : option Tensor) (white : bool)
    (num_samples : option nat) (s : state) (ind : conditional_fn)
    (g_mu g_var g_sample f_mu f_var : Tensor) (r' : rng_state)
    (lead : list nat) (P L : nat) :
  dispatch conditional independent_signature = Some ind ->
  ind Xnew feat kern f white q_sqrt = Ok (g_mu, g_var) ->
  sample_mvn g_mu g_var "diag" num_samples (rng s) = (Ok g_sample, r') ->
  mix_latent_gp (W (value kern)) g_mu g_var false false = Ok (f_mu, f_var) ->
  shape g_sample = lead ++ [L] -> wf_tensor g_sample ->
  shape (W (value kern)) = [P; L] -> wf_tensor (W (value kern)) ->
  exists f_sample s',
    _sample_conditional Xnew feat kern f false false q_sqrt white num_samples s
    = (Ok (f_sample, f_mu, f_var), s') /\
    forall idx p, in_range idx lead -> p < P ->
      get f_sample (idx ++ [p])
      = sum_over L (fun l => s_mul (get g_sample (idx ++ [l]))
                                   (get (W (value kern)) [p; l])).
Proof.
  intros Hd Hi Hs Hm Hg Hwg HW HwW.
  destruct (@contract_last_shape _ s_mul g_sample (W (value kern)) lead [P] L Hg HW)
    as (f_sample & Ht & _).
  exists f_sample. eexists. split.
  - exact (run_returns Xnew feat kern f q_sqrt white num_samples s Hd Hi Hs Hm Ht).
  - intros idx p Hidx Hp.
    assert (Hp' : in_range [p] [P]) by (constructor; [assumption | constructor]).
    destruct (@contract_last_get _ s_mul g_sample (W (value kern))
                lead [P] idx [p] L Hg HW Hwg HwW Hidx Hp') as (c & Hc & _ & Hget).
    unfold tensordot in Ht. rewrite Ht in Hc. inversion Hc; subst c.
    exact Hget.
Qed.

(** C6.  On the happy path the function returns the triple
    [(f_sample, f_mu, f_var)] and raises nothing; [f_mu, f_var] are what
    [mix_latent_gp] returns on the kernel's [W], the latent moments and the
    covariance flags, so that under the Mixing Transform contract
    [f_mu = g_mu @ W^T] and [f_var[..., p] = Σ_l W[p,l]^2 * g_var[..., l]]. *)
Theorem returns_sample_and_mixed_moments
    (Xnew : pyobj Tensor) (feat : pyobj Feature) (kern : pyobj Kernel)
    (f : pyobj Tensor) (q_sqrt : option Tensor) (white : bool)
    (num_samples : option nat) (s : state) (ind : conditional_fn)
    (g_mu g_var g_sample : Tensor) (r' : rng_state)
    (batch lead : list nat) (N P L : nat) :
  dispatch conditional independent_signature = Some ind ->
  ind Xnew feat kern f white q_sqrt = Ok (g_mu, g_var) ->
  shape g_mu = batch ++ [N; L] -> wf_tensor g_mu ->
  shape g_var = batch ++ [N; L] -> wf_tensor g_var ->
  sample_mvn g_mu g_var "diag" num_samples (rng s) = (Ok g_sample, r') ->
  shape g_sample = lead ++ [L] ->
  shape (W (value kern)) = [P; L] -> wf_tensor (W (value kern)) ->
  mix_latent_gp (W (value kern)) g_mu g_var false false
  = mixing_transform (W (value kern)) g_mu g_var ->
  exists f_sample f_mu f_var s',
    _sample_conditional Xnew feat kern f false false q_sqrt white num_samples s
    = (Ok (f_sample, f_mu, f_var), s') /\
    In (EvMixLatentGp (W (value kern)) g_mu g_var false false) (trace s') /\
    mix_latent_gp (W (value kern)) g_mu g_var false false = Ok (f_mu, f_var) /\
    tensordot g_mu (W (value kern)) = Ok f_mu /\
    forall idx p, in_range idx (batch ++ [N]) -> p < P ->
      get f_mu (idx ++ [p])
      = sum_over L (fun l => s_mul (get g_mu (idx ++ [l]))
                                   (get (W (value kern)) [p; l])) /\
      get f_var (idx ++ [p])
      = sum_over L (fun l => s_mul (s_mul (get (W (value kern)) [p; l])
                                          (get (W (value kern)) [p; l]))
                                   (get g_var (idx ++ [l]))).
Proof.
  intros Hd Hi Hmu Hwmu Hvar Hwvar Hs Hg HW HwW Hmix.
  assert (Hmu' : shape g_mu = (batch ++ [N]) ++ [L])
    by (rewrite Hmu, <- app_assoc; reflexivity).
  assert (Hvar' : shape g_var = (batch ++ [N]) ++ [L])
    by (rewrite Hvar, <- app_assoc; reflexivity).
  destruct (@contract_last_shape _ s_mul g_sample (W (value kern)) lead [P] L Hg HW)
    as (f_sample & Ht & _).
  destruct (@contract_last_shape _ s_mul g_mu (W (value kern)) _ [P] L Hmu' HW)
    as (f_mu & Hfmu & _).
  destruct (@contract_last_shape _ squared_weight g_var (W (value kern)) _ [P] L
              Hvar' HW) as (f_var & Hfvar & _).
  assert (Hm : mix_latent_gp (W (value kern)) g_mu g_var false false
               = Ok (f_mu, f_var)).
  { rewrite Hmix. unfold mixing_transform, tensordot. rewrite Hfmu, Hfvar.
    reflexivity. }
  exists f_sample, f_mu, f_var. eexists.
  split; [exact (run_returns Xnew feat kern f q_sqrt white num_samples s Hd Hi Hs Hm Ht)|].
  split; [simpl; apply in_or_app; right; simpl; auto 10|].
  split; [assumption|]. split; [assumption|].
  intros idx p Hidx Hp.
  assert (Hp' : in_range [p] [P]) by (constructor; [assumption | constructor]).
  split.
  - destruct (@contract_last_get _ s_mul g_mu (W (value kern))
                _ [P] idx [p] L Hmu' HW Hwmu HwW Hidx Hp') as (c & Hc & _ & Hget).
    rewrite Hfmu in Hc. inversion Hc; subst c. exact Hget.
  - destruct (@contract_last_get _ squared_weight g_var (W (value kern))
                _ [P] idx [p] L Hvar' HW Hwvar HwW Hidx Hp') as (c & Hc & _ & Hget).
    rewrite Hfvar in Hc. inversion Hc; subst c. exact Hget.
Qed.

(** C10.  The inner implementation is resolved from the constant tuple
    [(object, SeparateIndependentMof, SeparateIndependentMok, object)]:
    whatever the runtime classes of [Xnew], [feat], [kern] and [f], the run
    looks up that tuple and invokes what the lookup returns, although the
    variant itself is registered under
    [(object, MixedKernelSharedMof, SeparateMixedMok, object)]. *)
Theorem inner_implementation_fixed
    (table : registry sample_conditional_fn)
    (tX tfeat tkern tf : pyclass)
    (vX : Tensor) (vfeat : Feature) (vkern : Kernel) (vf : Tensor)
    (q_sqrt : option Tensor) (white : bool)
    (num_samples : option nat) (s : state) :
  let Xnew := PyObj tX vX in
  let feat := PyObj tfeat vfeat in
  let kern := PyObj tkern vkern in
  let f := PyObj tf vf in
  In ([object; MixedKernelSharedMof; SeparateMixedMok; object], _sample_conditional)
     (sample_conditional_register table) /\
  exists out s' rest,
    _sample_conditional Xnew feat kern f false false q_sqrt white num_samples s
    = (out, s') /\
    match dispatch conditional
            [object; SeparateIndependentMof; SeparateIndependentMok; object] with
    | Some ind =>
        trace s' = trace s ++
          [EvLogDebug "(MixedKernelSharedMof, MixedKernelSeparateMof), SeparateMixedMok";
           EvDispatch [object; SeparateIndependentMof; SeparateIndependentMok; object];
           EvConditional ind Xnew feat kern f white q_sqrt] ++ rest /\
        forall ev, In ev rest ->
          (forall types, ev <> EvDispatch types) /\
          (forall i a b c d w q, ev <> EvConditional i a b c d w q)
    | None =>
        out = Raise DispatchError /\ rest = [] /\
        trace s' = trace s ++
          [EvLogDebug "(MixedKernelSharedMof, MixedKernelSeparateMof), SeparateMixedMok";
           EvDispatch [object; SeparateIndependentMof; SeparateIndependentMok; object]]
    end.
Proof.
  intros Xnew feat kern f. split.
  { unfold sample_conditional_register, register. apply in_or_app. right.
    left. reflexivity. }
  unfold_run. fold independent_signature.
  destruct (dispatch conditional independent_signature) as [ind|] eqn:Hd; simpl.
  2:{ do 2 eexists. exists []. tidy_trace. split; [reflexivity|].
      split; [reflexivity|]. split; reflexivity. }
  assert (Hrest : forall rest : list event,
            (forall ev, In ev rest ->
               (exists a b c d, ev = EvSampleMvn a b c d) \/
               (exists a b c d e, ev = EvMixLatentGp a b c d e) \/
               (exists a b, ev = EvTensordot a b)) ->
            forall ev, In ev rest ->
              (forall types, ev <> EvDispatch types) /\
              (forall i a b c d w q, ev <> EvConditional i a b c d w q)).
  { intros rest Hall ev Hev.
    destruct (Hall ev Hev) as [(?&?&?&?&->) | [(?&?&?&?&?&->) | (?&?&->)]];
      split; intros; discriminate. }
  destruct (ind Xnew feat kern f white q_sqrt) as [[g_mu g_var]|e] eqn:Hi; simpl.
  2:{ do 2 eexists. exists []. tidy_trace. split; [reflexivity|].
      split; [reflexivity|]. intros ev []. }
  destruct (sample_mvn g_mu g_var "diag" num_samples (rng s))
    as [[g_sample|e] r'] eqn:Hs; simpl.
  2:{ stopped_run. later_events Hrest. }
  destruct (mix_latent_gp (W vkern) g_mu g_var false false)
    as [[f_mu f_var]|e] eqn:Hm; simpl.
  2:{ stopped_run. later_events Hrest. }
  destruct (tensordot g_sample (W vkern)) as [f_sample|e] eqn:Ht; simpl.
  2:{ stopped_run. later_events Hrest. }
  stopped_run. later_events Hrest.
Qed.

End VariantFacts.

(** ** The run with the modelled [sample_mvn] and [mix_latent_gp] *)

Section ModelledRunFacts.
Context {S : Scalar} {H : ClassHierarchy}.

(** With the tag ["diag"], [sample_mvn_model] returns a sample with the shape
    of the moments and the sample axis, when there is one, in front of the
    last two axes. *)
Lemma sample_mvn_model_shape
    (sqrt : scalar -> scalar)
    (other_tags : Tensor -> Tensor -> string -> option nat ->
                  noise_source -> result Tensor * noise_source)
    (mu var : Tensor) (num_samples : option nat) (g : noise_source)
    (batch : list nat) (N L : nat) :
  shape mu = batch ++ [N; L] -> shape var = batch ++ [N; L] ->
  exists g_sample g',
    sample_mvn_model sqrt other_tags mu var "diag" num_samples g
    = (Ok g_sample, g') /\
    shape g_sample = batch ++ sample_axis num_samples ++ [N; L].
Proof.
  intros Hmu Hvar. unfold sample_mvn_model. cbn [String.eqb Ascii.eqb Bool.eqb].
  rewrite Hvar, Hmu.
  destruct (list_eq_dec Nat.eq_dec (batch ++ [N; L]) (batch ++ [N; L]))
    as [_|Hne]; [|contradiction].
  assert (Hlen : length (batch ++ [N; L]) - 2 = length batch)
    by (rewrite length_app; simpl; lia).
  assert (Hrank : (2 <=? length (batch ++ [N; L])) = true)
    by (apply Nat.leb_le; rewrite length_app; simpl; lia).
  rewrite Hrank, Hlen. cbn [andb].
  rewrite firstn_app, firstn_all, Nat.sub_diag, firstn_O, app_nil_r.
  rewrite skipn_app, skipn_all, Nat.sub_diag, skipn_O. cbn [app].
  unfold draw. do 2 eexists. split; reflexivity.
Qed.

(** C3.  On the happy path, where the latent moments have shape
    [[..., N, L]] and the mixing matrix has shape [[P, L]], the call returns
    a well-formed sample of shape [[..., (S,) N, P]]: the axis [S] is there
    exactly when [num_samples] is not [None], and its extent is
    [num_samples]. *)
Theorem f_sample_shape
    (Feature_ Kernel_ : Type) (W_ : Kernel_ -> Tensor)
    (table : registry (conditional_fn (O := model_objects Feature_ Kernel_ W_)))
    (sqrt : scalar -> scalar)
    (other_tags : Tensor -> Tensor -> string -> option nat ->
                  noise_source -> result Tensor * noise_source)
    (full_modes : Tensor -> Tensor -> Tensor -> bool -> bool ->
                  result (Tensor * Tensor))
    (Xnew : pyobj Tensor) (feat : pyobj Feature_) (kern : pyobj Kernel_)
    (f : pyobj Tensor) (q_sqrt : option Tensor) (white : bool)
    (num_samples : option nat)
    (s : state (O := model_objects Feature_ Kernel_ W_))
    (ind : conditional_fn (O := model_objects Feature_ Kernel_ W_))
    (g_mu g_var : Tensor) (batch : list nat) (N P L : nat) :
  dispatch table independent_signature = Some ind ->
  ind Xnew feat kern f white q_sqrt = Ok (g_mu, g_var) ->
  shape g_mu = batch ++ [N; L] -> shape g_var = batch ++ [N; L] ->
  shape (W_ (value kern)) = [P; L] ->
  exists f_sample f_mu f_var s',
    _sample_conditional
      (C := model_collaborators Feature_ Kernel_ W_ table sqrt other_tags
                                full_modes)
      Xnew feat kern f false false q_sqrt white num_samples s
    = (Ok (f_sample, f_mu, f_var), s') /\
    shape f_sample = match num_samples with
                     | Some S_ => batch ++ [S_; N; P]
                     | None => batch ++ [N; P]
                     end /\
    wf_tensor f_sample.
Proof.
  intros Hd Hi Hmu Hvar HW.
  destruct (sample_mvn_model_shape sqrt other_tags g_mu g_var num_samples
              (rng s) batch N L Hmu Hvar) as (g_sample & g' & Hs & Hg).
  assert (Hmu' : shape g_mu = (batch ++ [N]) ++ [L])
    by (rewrite Hmu, <- app_assoc; reflexivity).
  assert (Hvar' : shape g_var = (batch ++ [N]) ++ [L])
    by (rewrite Hvar, <- app_assoc; reflexivity).
  assert (Hg' : shape g_sample = (batch ++ sample_axis num_samples ++ [N]) ++ [L])
    by (rewrite Hg, <- !app_assoc; reflexivity).
  destruct (@contract_last_shape _ s_mul g_mu (W_ (value kern)) _ [P] L Hmu' HW)
    as (f_mu & Hfmu & _).
  destruct (@contract_last_shape _ squared_weight g_var (W_ (value kern)) _ [P] L
              Hvar' HW) as (f_var & Hfvar & _).
  destruct (@contract_last_shape _ s_mul g_sample (W_ (value kern)) _ [P] L Hg' HW)
    as (f_sample & Ht & Hsh).
  assert (Hm : mixing_transform (W_ (value kern)) g_mu g_var = Ok (f_mu, f_var)).
  { unfold mixing_transform, tensordot. rewrite Hfmu, Hfvar. reflexivity. }
  exists f_sample, f_mu, f_var. eexists. split; [|split].
  - apply (@run_returns _ _ _
             (model_collaborators Feature_ Kernel_ W_ table sqrt other_tags
                                  full_modes)
             Xnew feat kern f q_sqrt white num_samples s ind
             g_mu g_var g_sample f_mu f_var f_sample g').
    + exact Hd.
    + exact Hi.
    + exact Hs.
    + exact Hm.
    + exact Ht.
  - rewrite Hsh. destruct num_samples; simpl; rewrite <- !app_assoc; reflexivity.
  - exact (proj1 (contract_last_wf _ _ _ Ht)).
Qed.

End ModelledRunFacts.

(** ** Mixing by the identity *)

Section IdentityMixingFacts.
Context {S : Scalar} {H : ClassHierarchy} {O : Objects} {C : Collaborators}.
Context {K : Classified S} (Laws : SignedZeroLaws K).

Lemma unit_weight_mul : unit_weight s_mul.
Proof.
  split.
  - apply mul_one_r.
  - intros x Hx. apply mul_zero_r; [exact Hx | apply zero_is_zero].
Qed.

Lemma unit_weight_squared : unit_weight squared_weight.
Proof.
  unfold squared_weight. split.
  - intros x. rewrite mul_one_r. apply mul_one_l.
  - intros x Hx. apply mul_zero_l; [exact Hx|].
    apply mul_zero_r; [|apply zero_is_zero].
    apply zero_finite, zero_is_zero.
Qed.

(** C7.  When the mixing matrix is the identity and the entries
    of the latent sample and of the latent moments are finite, mixing
    changes no number: the returned sample and moments have the shapes of
    the latent ones and, entry by entry, the same numbers, a zero possibly
    coming back with the other sign. *)
Theorem identity_mixing_keeps_finite_values
    (Xnew : pyobj Tensor) (feat : pyobj Feature) (kern : pyobj Kernel)
    (f : pyobj Tensor) (q_sqrt : option Tensor) (white : bool)
    (num_samples : option nat) (s : state) (ind : conditional_fn)
    (g_mu g_var g_sample : Tensor) (r' : rng_state)
    (batch lead : list nat) (N L : nat) :
  W (value kern) = eye L ->
  dispatch conditional independent_signature = Some ind ->
  ind Xnew feat kern f white q_sqrt = Ok (g_mu, g_var) ->
  shape g_mu = batch ++ [N; L] -> wf_tensor g_mu ->
  shape g_var = batch ++ [N; L] -> wf_tensor g_var ->
  sample_mvn g_mu g_var "diag" num_samples (rng s) = (Ok g_sample, r') ->
  shape g_sample = lead ++ [L] -> wf_tensor g_sample ->
  mix_latent_gp (W (value kern)) g_mu g_var false false
  = mixing_transform (W (value kern)) g_mu g_var ->
  Forall finite (data g_sample) ->
  Forall finite (data g_mu) ->
  Forall finite (data g_var) ->
  exists f_sample f_mu f_var s',
    _sample_conditional Xnew feat kern f false false q_sqrt white num_samples s
    = (Ok (f_sample, f_mu, f_var), s') /\
    same_tensor f_sample g_sample /\
    same_tensor f_mu g_mu /\
    same_tensor f_var g_var.
Proof.
  intros HW Hd Hi Hmu Hwmu Hvar Hwvar Hs Hg Hwg Hmix Fs Fmu Fvar.
  assert (Hmu' : shape g_mu = (batch ++ [N]) ++ [L])
    by (rewrite Hmu, <- app_assoc; reflexivity).
  assert (Hvar' : shape g_var = (batch ++ [N]) ++ [L])
    by (rewrite Hvar, <- app_assoc; reflexivity).
  destruct (@contract_last_eye _ _ Laws s_mul g_sample lead L
              unit_weight_mul Hg Hwg Fs) as (f_sample & Ht & Es).
  destruct (@contract_last_eye _ _ Laws s_mul g_mu (batch ++ [N]) L
              unit_weight_mul Hmu' Hwmu Fmu) as (f_mu & Htm & Em).
  destruct (@contract_last_eye _ _ Laws squared_weight g_var (batch ++ [N]) L
              unit_weight_squared Hvar' Hwvar Fvar) as (f_var & Htv & Ev).
  exists f_sample, f_mu, f_var. eexists.
  split; [|split; [exact Es | split; [exact Em | exact Ev]]].
  apply (run_returns Xnew feat kern f q_sqrt white num_samples s Hd Hi Hs).
  - rewrite Hmix, HW. unfold mixing_transform, tensordot.
    rewrite Htm, Htv. reflexivity.
  - rewrite HW. exact Ht.
Qed.

End IdentityMixingFacts.

(** ** Binary64 arithmetic *)

Section FloatFacts.
Local Open Scope Z_scope.

(** The number one: mantissa [2^52], exponent [-52]. *)
Lemma Prim2SF_one :
  FloatOps.Prim2SF PrimFloat.one
  = SpecFloat.S754_finite false 4503599627370496 (-52).
Proof. reflexivity. Qed.

Lemma digits_shifted (m : positive) :
  Zpos (SpecFloat.digits2_pos (4503599627370496 * m))
  = Zpos (SpecFloat.digits2_pos m) + 52.
Proof.
  cbn [Pos.mul SpecFloat.digits2_pos]. rewrite !Pos2Z.inj_succ. lia.
Qed.

(** Rounding a mantissa shifted by 52 bits, at an exponent lowered by 52,
    gives the number back: nothing is lost. *)
Lemma round_shifted (s : bool) (m : positive) (e : Z) :
  SpecFloat.bounded FloatOps.prec FloatOps.emax m e = true ->
  SpecFloat.binary_round_aux FloatOps.prec FloatOps.emax s
    (Zpos (4503599627370496 * m)) (e + -52) SpecFloat.loc_Exact
  = SpecFloat.S754_finite s m e.
Proof.
  intros Hb. unfold SpecFloat.bounded, SpecFloat.canonical_mantissa in Hb.
  apply andb_prop in Hb. destruct Hb as [Hc He].
  apply Z.eqb_eq in Hc.
  unfold SpecFloat.binary_round_aux, SpecFloat.shr_fexp.
  unfold SpecFloat.Zdigits2 at 1. rewrite digits_shifted.
  replace (SpecFloat.fexp FloatOps.prec FloatOps.emax
             (Zpos (SpecFloat.digits2_pos m) + 52 + (e + -52)) - (e + -52))
    with 52 by (replace (Zpos (SpecFloat.digits2_pos m) + 52 + (e + -52))
                  with (Zpos (SpecFloat.digits2_pos m) + e) by lia;
                rewrite Hc; lia).
  cbn [SpecFloat.shr SpecFloat.shr_record_of_loc Pos.mul].
  cbn [SpecFloat.iter_pos SpecFloat.shr_1 orb].
  cbn [SpecFloat.shr_m SpecFloat.loc_of_shr_record SpecFloat.round_nearest_even
       SpecFloat.Zdigits2].
  replace (e + -52 + 52) with e by lia.
  rewrite Hc, Z.sub_diag.
  cbn [SpecFloat.shr SpecFloat.shr_record_of_loc SpecFloat.shr_m].
  rewrite He. reflexivity.
Qed.

Lemma float_mul_one_r (x : PrimFloat.float) : PrimFloat.mul x PrimFloat.one = x.
Proof.
  apply FloatAxioms.Prim2SF_inj. rewrite FloatAxioms.mul_spec, Prim2SF_one.
  pose proof (FloatAxioms.Prim2SF_valid x) as Hv.
  destruct (FloatOps.Prim2SF x) as [s|s| |s m e]; try reflexivity.
  - cbn. destruct s; reflexivity.
  - cbn. destruct s; reflexivity.
  - unfold FloatAxioms.SF64mul, SpecFloat.SFmul.
    rewrite xorb_false_r, Pos.mul_comm. apply round_shifted. exact Hv.
Qed.

Lemma float_mul_one_l (x : PrimFloat.float) : PrimFloat.mul PrimFloat.one x = x.
Proof.
  apply FloatAxioms.Prim2SF_inj. rewrite FloatAxioms.mul_spec, Prim2SF_one.
  pose proof (FloatAxioms.Prim2SF_valid x) as Hv.
  destruct (FloatOps.Prim2SF x) as [s|s| |s m e]; try reflexivity.
  unfold FloatAxioms.SF64mul, SpecFloat.SFmul.
  rewrite xorb_false_l.
  replace (-52 + e) with (e + -52) by lia. apply round_shifted. exact Hv.
Qed.

Lemma float_mul_zero_r (x z : PrimFloat.float) :
  float_finite x -> float_is_zero z -> float_is_zero (PrimFloat.mul x z).
Proof.
  unfold float_finite, float_is_zero. rewrite FloatAxioms.mul_spec.
  destruct (FloatOps.Prim2SF x), (FloatOps.Prim2SF z); cbn; tauto.
Qed.

Lemma float_mul_zero_l (x z : PrimFloat.float) :
  float_finite x -> float_is_zero z -> float_is_zero (PrimFloat.mul z x).
Proof.
  unfold float_finite, float_is_zero. rewrite FloatAxioms.mul_spec.
  destruct (FloatOps.Prim2SF x), (FloatOps.Prim2SF z); cbn; tauto.
Qed.

Lemma float_add_zero_r (x z : PrimFloat.float) :
  float_is_zero z ->
  PrimFloat.add x z = x \/
  (float_is_zero (PrimFloat.add x z) /\ float_is_zero x).
Proof.
  unfold float_is_zero. intros Hz.
  destruct (FloatOps.Prim2SF z) as [sz|?| |? ? ?] eqn:Ez; try contradiction.
  destruct (FloatOps.Prim2SF x) as [sx|sx| |sx m e] eqn:Ex.
  - right. rewrite FloatAxioms.add_spec, Ex, Ez.
    split; [destruct sx, sz; exact I | exact I].
  - left. apply FloatAxioms.Prim2SF_inj.
    rewrite FloatAxioms.add_spec, Ex, Ez. reflexivity.
  - left. apply FloatAxioms.Prim2SF_inj.
    rewrite FloatAxioms.add_spec, Ex, Ez. reflexivity.
  - left. apply FloatAxioms.Prim2SF_inj.
    rewrite FloatAxioms.add_spec, Ex, Ez. reflexivity.
Qed.

Lemma float_add_zero_l (x z : PrimFloat.float) :
  float_is_zero z ->
  PrimFloat.add z x = x \/
  (float_is_zero (PrimFloat.add z x) /\ float_is_zero x).
Proof.
  unfold float_is_zero. intros Hz.
  destruct (FloatOps.Prim2SF z) as [sz|?| |? ? ?] eqn:Ez; try contradiction.
  destruct (FloatOps.Prim2SF x) as [sx|sx| |sx m e] eqn:Ex.
  - right. rewrite FloatAxioms.add_spec, Ex, Ez.
    split; [destruct sx, sz; exact I | exact I].
  - left. apply FloatAxioms.Prim2SF_inj.
    rewrite FloatAxioms.add_spec, Ex, Ez. reflexivity.
  - left. apply FloatAxioms.Prim2SF_inj.
    rewrite FloatAxioms.add_spec, Ex, Ez. reflexivity.
  - left. apply FloatAxioms.Prim2SF_inj.
    rewrite FloatAxioms.add_spec, Ex, Ez. reflexivity.
Qed.

(** Binary64 arithmetic keeps the laws asked of a classified carrier. *)
Lemma float_laws : SignedZeroLaws float_classified.
Proof.
  split.
  - exact I.
  - intros z. cbn [is_zero finite float_classified].
    unfold float_is_zero, float_finite.
    destruct (FloatOps.Prim2SF z); tauto.
  - exact float_mul_one_r.
  - exact float_mul_one_l.
  - exact float_mul_zero_r.
  - exact float_mul_zero_l.
  - exact float_add_zero_r.
  - exact float_add_zero_l.
Qed.

End FloatFacts.

(** ** The facts at the concrete environment *)

Lemma gp_hierarchy_laws : ClassHierarchyLaws gp_hierarchy.
Proof.
  split.
  - intros a b. split.
    + destruct a, b; simpl; intros E; try discriminate; reflexivity.
    + intros ->. destruct b; reflexivity.
  - intros a. destruct a; reflexivity.
  - intros a. destruct a; reflexivity.
Qed.

Lemma unsupported_covariance_raises_witness :
  exists msg,
    @_sample_conditional Z_scalar gp_hierarchy gp_objects gp_collaborators
      example_Xnew example_feat example_kern example_f
      false true None false (Some 2) example_state
    = (Raise (NotImplementedError msg),
       {| trace := trace example_state ++
            [EvLogDebug "(MixedKernelSharedMof, MixedKernelSeparateMof), SeparateMixedMok"];
          rng := rng example_state |}).
Proof.
  apply (@unsupported_covariance_raises Z_scalar gp_hierarchy gp_objects
           gp_collaborators).
  right. reflexivity.
Defined.

Lemma moments_from_independent_conditional_witness :
  exists rest,
    @_sample_conditional Z_scalar gp_hierarchy gp_objects gp_collaborators
      example_Xnew example_feat example_kern example_f
      false false None true (Some 2) example_state
    = (Ok (example_f_sample, example_f_mu, example_f_var),
       {| trace := trace example_state ++
            [EvLogDebug "(MixedKernelSharedMof, MixedKernelSeparateMof), SeparateMixedMok";
             @EvDispatch Z_scalar gp_hierarchy gp_objects
               [c_object; c_SeparateIndependentMof; c_SeparateIndependentMok;
                c_object];
             EvConditional example_conditional example_Xnew example_feat
                           example_kern example_f true None;
             EvSampleMvn example_g_mu example_g_var "diag" (Some 2)] ++ rest;
          rng := @mkNoise Z_scalar (fun n => (Z.of_nat n mod 5 - 2)%Z) 12 |}).
Proof.
  exact (@moments_from_independent_conditional Z_scalar gp_hierarchy gp_objects
           gp_collaborators example_Xnew example_feat example_kern example_f
           None true (Some 2) example_state example_conditional eq_refl).
Defined.


Lemma f_sample_is_contraction_witness :
  exists f_sample s',
    @_sample_conditional Z_scalar gp_hierarchy gp_objects gp_collaborators
      example_Xnew example_feat example_kern example_f
      false false None true (Some 2) example_state
    = (Ok (f_sample, example_f_mu, example_f_var), s') /\
    forall idx p, in_range idx [2; 3] -> p < 3 ->
      get f_sample (idx ++ [p])
      = sum_over 2 (fun l =>
          s_mul (get example_g_sample (idx ++ [l]))
                (get (W (value example_kern)) [p; l])).
Proof.
  apply (@f_sample_is_contraction Z_scalar gp_hierarchy gp_objects
           gp_collaborators example_Xnew example_feat example_kern example_f
           None true (Some 2) example_state example_conditional
           example_g_mu example_g_var
           example_g_sample
           example_f_mu example_f_var
           (@mkNoise Z_scalar (fun n => (Z.of_nat n mod 5 - 2)%Z) 12)
           [2; 3] 3 2); reflexivity.
Defined.

Lemma f_sample_shape_witness :
  exists f_sample f_mu f_var s',
    @_sample_conditional Z_scalar gp_hierarchy gp_objects gp_collaborators
      example_Xnew example_feat example_kern example_f
      false false None true (Some 2) example_state
    = (Ok (f_sample, f_mu, f_var), s') /\
    shape f_sample = [] ++ [2; 3; 3] /\
    wf_tensor f_sample.
Proof.
  exact (@f_sample_shape Z_scalar gp_hierarchy unit Tensor (fun k => k)
           (@conditional _ _ _ gp_collaborators) Z.sqrt (unavailable "full")
           (fun _ _ _ _ _ => Raise (CollaboratorError "full covariance"))
           example_Xnew example_feat example_kern example_f
           None true (Some 2) example_state example_conditional
           example_g_mu example_g_var [] 3 3 2
           eq_refl eq_refl eq_refl eq_refl eq_refl).
Defined.

Lemma returns_sample_and_mixed_moments_witness :
  exists f_sample f_mu f_var s',
    @_sample_conditional Z_scalar gp_hierarchy gp_objects gp_collaborators
      example_Xnew example_feat example_kern example_f
      false false None true (Some 2) example_state
    = (Ok (f_sample, f_mu, f_var), s') /\
    In (EvMixLatentGp (W (value example_kern)) example_g_mu example_g_var
                      false false) (trace s') /\
    @mix_latent_gp _ _ _ gp_collaborators (W (value example_kern))
                   example_g_mu example_g_var false false = Ok (f_mu, f_var) /\
    tensordot example_g_mu (W (value example_kern)) = Ok f_mu /\
    forall idx p, in_range idx ([] ++ [3]) -> p < 3 ->
      get f_mu (idx ++ [p])
      = sum_over 2 (fun l => s_mul (get example_g_mu (idx ++ [l]))
                                   (get (W (value example_kern)) [p; l])) /\
      get f_var (idx ++ [p])
      = sum_over 2 (fun l => s_mul (s_mul (get (W (value example_kern)) [p; l])
                                          (get (W (value example_kern)) [p; l]))
                                   (get example_g_var (idx ++ [l]))).
Proof.
  apply (@returns_sample_and_mixed_moments Z_scalar gp_hierarchy gp_objects
           gp_collaborators example_Xnew example_feat example_kern example_f
           None true (Some 2) example_state example_conditional
           example_g_mu example_g_var example_g_sample
           (@mkNoise Z_scalar (fun n => (Z.of_nat n mod 5 - 2)%Z) 12)
           [] [2; 3] 3 3 2); reflexivity.
Defined.


Lemma specific_pattern_outranks_wildcard_witness :
  outranks (H := gp_hierarchy)
    [c_object; c_SeparateIndependentMof; c_SeparateIndependentMok; c_object]
    [c_object; c_object; c_object; c_object] = true /\
  dispatch
    (register_all
       (register (H := gp_hierarchy)
          [([c_object; c_object; c_object; c_object], fallback_conditional);
           ([c_object; c_MixedKernelSharedMof; c_SeparateMixedMok; c_object],
            fallback_conditional)]
          [c_object; c_SeparateIndependentMof; c_SeparateIndependentMok; c_object]
          example_conditional)
       [([c_object; c_object; c_object; c_ndarray], fallback_conditional);
        ([c_object; c_object; c_SeparateIndependentMok; c_object],
         fallback_conditional)])
    [c_ndarray; c_MixedKernelSeparateMof; c_SeparateIndependentMok; c_ndarray]
  = Some example_conditional.
Proof.
  apply (@specific_pattern_outranks_wildcard gp_hierarchy gp_hierarchy_laws).
  - reflexivity.
  - reflexivity.
  - reflexivity.
  - repeat (apply Forall_cons; [right; vm_compute; auto|]). constructor.
  - repeat (apply Forall_cons;
            [split; [discriminate | vm_compute; auto]|]).
    constructor.
Defined.

Lemma identity_mixing_keeps_finite_values_witness :
  exists f_sample f_mu f_var s',
    @_sample_conditional float_scalar gp_hierarchy float_objects
      float_collaborators
      (@PyObj gp_hierarchy _ c_ndarray finite_g_var) float_feat
      float_identity_kern (@PyObj gp_hierarchy _ c_ndarray finite_g_mu)
      false false None true None float_state
    = (Ok (f_sample, f_mu, f_var), s') /\
    same_tensor (K := float_classified) f_sample finite_g_sample /\
    same_tensor (K := float_classified) f_mu finite_g_mu /\
    same_tensor (K := float_classified) f_var finite_g_var.
Proof.
  apply (@identity_mixing_keeps_finite_values float_scalar gp_hierarchy
           float_objects float_collaborators float_classified float_laws
           (@PyObj gp_hierarchy _ c_ndarray finite_g_var) float_feat
           float_identity_kern (@PyObj gp_hierarchy _ c_ndarray finite_g_mu)
           None true None float_state float_conditional
           finite_g_mu finite_g_var finite_g_sample
           (@mkNoise float_scalar
              (fun n => if Nat.even n then PrimFloat.one
                        else PrimFloat.opp PrimFloat.two) 4)
           [] [2] 2 2);
    try reflexivity;
    repeat (apply Forall_cons; [exact I|]); apply Forall_nil.
Defined.

(** C7 as stated fails on the program's carrier: with the identity as mixing
    matrix and an infinite entry in the latent sample, the call returns, and
    the returned sample has a not-a-number where the latent sample has -1,
    because the product of the infinity and the zero of the identity is
    not a number. *)
Lemma identity_mixing_turns_infinity_into_nan :
  @W float_scalar float_objects (value float_identity_kern) = eye 2 /\
  @sample_mvn _ _ _ float_collaborators infinite_g_mu infinite_g_var
              "diag" None (rng float_state)
  = (Ok infinite_g_sample,
     @mkNoise float_scalar
       (fun n => if Nat.even n then PrimFloat.one
                 else PrimFloat.opp PrimFloat.two) 2) /\
  fst (@_sample_conditional float_scalar gp_hierarchy float_objects
         float_collaborators
         (@PyObj gp_hierarchy _ c_ndarray infinite_g_var) float_feat
         float_identity_kern (@PyObj gp_hierarchy _ c_ndarray infinite_g_mu)
         false false None true None float_state)
  = Ok (infinite_f_sample, infinite_f_sample, infinite_g_var) /\
  infinite_f_sample <> infinite_g_sample /\
  infinite_f_sample <> infinite_g_mu.
Proof.
  split; [reflexivity|]. split; [reflexivity|]. split; [reflexivity|].
  assert (Hne : infinite_f_sample <> infinite_g_sample).
  { intros E.
    apply (f_equal (fun t : Tensor (S := float_scalar) =>
                      map PrimFloat.classify (@data float_scalar t))) in E.
    vm_compute in E. discriminate. }
  split; exact Hne.
Qed.

(** Equality of numbers is the most that holds: for the finite moments above
    the identity gives the negative zero of the latent sample back as the
    positive zero. *)
Lemma identity_mixing_flips_negative_zero :
  fst (@_sample_conditional float_scalar gp_hierarchy float_objects
         float_collaborators
         (@PyObj gp_hierarchy _ c_ndarray finite_g_var) float_feat
         float_identity_kern (@PyObj gp_hierarchy _ c_ndarray finite_g_mu)
         false false None true None float_state)
  = Ok (tensorF [2; 2] [PrimFloat.two; PrimFloat.opp PrimFloat.two;
                        PrimFloat.two; PrimFloat.zero],
        tensorF [2; 2] [PrimFloat.one; PrimFloat.opp PrimFloat.two;
                        PrimFloat.zero; PrimFloat.zero],
        finite_g_var) /\
  tensorF [2; 2] [PrimFloat.two; PrimFloat.opp PrimFloat.two;
                  PrimFloat.two; PrimFloat.zero] <> finite_g_sample.
Proof.
  split; [reflexivity|]. intros E.
  apply (f_equal (fun t : Tensor (S := float_scalar) =>
                    map PrimFloat.classify (@data float_scalar t))) in E.
  vm_compute in E. discriminate.
Qed.

(** A pattern with the class of the runtime type outranks a pattern with one
    of its base classes, in whichever order the two were registered. *)
Lemma exact_class_outranks_base_class :
  let base := [c_object; c_SeparateIndependentMof; c_SeparateIndependentMok;
               c_object] in
  let exact := [c_object; c_MixedKernelSeparateMof; c_SeparateIndependentMok;
                c_object] in
  let types := [c_ndarray; c_MixedKernelSeparateMof; c_SeparateIndependentMok;
                c_ndarray] in
  dispatch (H := gp_hierarchy)
    [(base, fallback_conditional); (exact, example_conditional)] types
  = Some example_conditional /\
  dispatch (H := gp_hierarchy)
    [(exact, example_conditional); (base, fallback_conditional)] types
  = Some example_conditional.
Proof. split; reflexivity. Qed.

(** * Further facts about the run *)


Section RunFacts.
Context {S : Scalar} {H : ClassHierarchy} {O : Objects} {C : Collaborators}.

Ltac open_run :=
  unfold _sample_conditional, logger_debug, conditional_dispatch,
    call_conditional, call_sample_mvn, call_mix_latent_gp, call_tensordot,
    bind, emit, ret, raise, lift; simpl.

Ltac open_run_in Hrun :=
  unfold _sample_conditional, logger_debug, conditional_dispatch,
    call_conditional, call_sample_mvn, call_mix_latent_gp, call_tensordot,
    bind, emit, ret, raise, lift in Hrun; simpl in Hrun.

Ltac flatten_trace := repeat rewrite <- app_assoc; simpl.

(** What a returning run went through. *)
Lemma run_inversion
    (Xnew : pyobj Tensor) (feat : pyobj Feature) (kern : pyobj Kernel)
    (f : pyobj Tensor) (full_cov full_output_cov : bool)
    (q_sqrt : option Tensor) (white : bool) (num_samples : option nat)
    (s s' : state) (f_sample f_mu f_var : Tensor) :
  _sample_conditional Xnew feat kern f full_cov full_output_cov
                      q_sqrt white num_samples s
  = (Ok (f_sample, f_mu, f_var), s') ->
  full_cov = false /\ full_output_cov = false /\
  exists ind g_mu g_var g_sample,
    dispatch conditional independent_signature = Some ind /\
    ind Xnew feat kern f white q_sqrt = Ok (g_mu, g_var) /\
    sample_mvn g_mu g_var "diag" num_samples (rng s) = (Ok g_sample, rng s') /\
    mix_latent_gp (W (value kern)) g_mu g_var false false = Ok (f_mu, f_var) /\
    tensordot g_sample (W (value kern)) = Ok f_sample /\
    trace s' = trace s ++
      [EvLogDebug "(MixedKernelSharedMof, MixedKernelSeparateMof), SeparateMixedMok";
       EvDispatch independent_signature;
       EvConditional ind Xnew feat kern f white q_sqrt;
       EvSampleMvn g_mu g_var "diag" num_samples;
       EvMixLatentGp (W (value kern)) g_mu g_var false false;
       EvTensordot g_sample (W (value kern))].
Proof.
  intros Hrun. open_run_in Hrun.
  destruct full_cov; [discriminate|].
  destruct full_output_cov; [discriminate|]. simpl in Hrun.
  destruct (dispatch conditional independent_signature) as [ind|] eqn:Hd;
    [|discriminate]. simpl in Hrun.
  destruct (ind Xnew feat kern f white q_sqrt) as [[g_mu g_var]|e] eqn:Hi;
    [|discriminate]. simpl in Hrun.
  destruct (sample_mvn g_mu g_var "diag" num_samples (rng s))
    as [[g_sample|e] r'] eqn:Hs; [|discriminate]. simpl in Hrun.
  destruct (mix_latent_gp (W (value kern)) g_mu g_var false false)
    as [[m v]|e] eqn:Hm; [|discriminate]. simpl in Hrun.
  destruct (tensordot g_sample (W (value kern))) as [t|e] eqn:Ht;
    [|discriminate].
  inversion Hrun; subst; clear Hrun.
  split; [reflexivity|]. split; [reflexivity|].
  exists ind, g_mu, g_var, g_sample. simpl. flatten_trace. auto 10.
Qed.

(** X1.  The message of the [NotImplementedError] names the flag that was
    rejected: ["full_cov not yet implemented"] whenever [full_cov] is set,
    ["full_output_cov not yet implemented"] when only [full_output_cov] is. *)
Theorem not_implemented_message
    (Xnew : pyobj Tensor) (feat : pyobj Feature) (kern : pyobj Kernel)
    (f : pyobj Tensor) (full_cov full_output_cov : bool)
    (q_sqrt : option Tensor) (white : bool) (num_samples : option nat)
    (s : state) :
  full_cov || full_output_cov = true ->
  fst (_sample_conditional Xnew feat kern f full_cov full_output_cov
                           q_sqrt white num_samples s)
  = Raise (NotImplementedError
             (if full_cov then "full_cov not yet implemented"
              else "full_output_cov not yet implemented")).
Proof.
  intros Hflag. open_run.
  destruct full_cov; [reflexivity|].
  destruct full_output_cov; [reflexivity | discriminate].
Qed.

(** X2.  An exception of the resolved conditional implementation leaves the
    function unchanged, and nothing is called after it: no sample is drawn
    (the random generator is untouched), nothing is mixed. *)
Theorem conditional_error_propagates
    (Xnew : pyobj Tensor) (feat : pyobj Feature) (kern : pyobj Kernel)
    (f : pyobj Tensor) (q_sqrt : option Tensor) (white : bool)
    (num_samples : option nat) (s : state) (ind : conditional_fn) (e : exn) :
  dispatch conditional independent_signature = Some ind ->
  ind Xnew feat kern f white q_sqrt = Raise e ->
  _sample_conditional Xnew feat kern f false false q_sqrt white num_samples s
  = (Raise e,
     {| trace := trace s ++
          [EvLogDebug "(MixedKernelSharedMof, MixedKernelSeparateMof), SeparateMixedMok";
           EvDispatch independent_signature;
           EvConditional ind Xnew feat kern f white q_sqrt];
        rng := rng s |}).
Proof.
  intros Hd Hi. open_run. rewrite Hd. simpl. rewrite Hi. simpl.
  flatten_trace. reflexivity.
Qed.

(** X3.  An exception of [sample_mvn] leaves the function unchanged;
    [mix_latent_gp] and [tf.tensordot] are not called after it. *)
Theorem sample_mvn_error_propagates
    (Xnew : pyobj Tensor) (feat : pyobj Feature) (kern : pyobj Kernel)
    (f : pyobj Tensor) (q_sqrt : option Tensor) (white : bool)
    (num_samples : option nat) (s : state) (ind : conditional_fn)
    (g_mu g_var : Tensor) (r' : rng_state) (e : exn) :
  dispatch conditional independent_signature = Some ind ->
  ind Xnew feat kern f white q_sqrt = Ok (g_mu, g_var) ->
  sample_mvn g_mu g_var "diag" num_samples (rng s) = (Raise e, r') ->
  _sample_conditional Xnew feat kern f false false q_sqrt white num_samples s
  = (Raise e,
     {| trace := trace s ++
          [EvLogDebug "(MixedKernelSharedMof, MixedKernelSeparateMof), SeparateMixedMok";
           EvDispatch independent_signature;
           EvConditional ind Xnew feat kern f white q_sqrt;
           EvSampleMvn g_mu g_var "diag" num_samples];
        rng := r' |}).
Proof.
  intros Hd Hi Hs. open_run. rewrite Hd. simpl. rewrite Hi. simpl.
  rewrite Hs. simpl. flatten_trace. reflexivity.
Qed.

(** X4.  An exception of [mix_latent_gp] leaves the function unchanged and
    [tf.tensordot] is not called; the sample has been drawn by then, so the
    random generator has advanced although the call fails. *)
Theorem mix_latent_gp_error_propagates
    (Xnew : pyobj Tensor) (feat : pyobj Feature) (kern : pyobj Kernel)
    (f : pyobj Tensor) (q_sqrt : option Tensor) (white : bool)
    (num_samples : option nat) (s : state) (ind : conditional_fn)
    (g_mu g_var g_sample : Tensor) (r' : rng_state) (e : exn) :
  dispatch conditional independent_signature = Some ind ->
  ind Xnew feat kern f white q_sqrt = Ok (g_mu, g_var) ->
  sample_mvn g_mu g_var "diag" num_samples (rng s) = (Ok g_sample, r') ->
  mix_latent_gp (W (value kern)) g_mu g_var false false = Raise e ->
  _sample_conditional Xnew feat kern f false false q_sqrt white num_samples s
  = (Raise e,
     {| trace := trace s ++
          [EvLogDebug "(MixedKernelSharedMof, MixedKernelSeparateMof), SeparateMixedMok";
           EvDispatch independent_signature;
           EvConditional ind Xnew feat kern f white q_sqrt;
           EvSampleMvn g_mu g_var "diag" num_samples;
           EvMixLatentGp (W (value kern)) g_mu g_var false false];
        rng := r' |}).
Proof.
  intros Hd Hi Hs Hm. open_run. rewrite Hd. simpl. rewrite Hi. simpl.
  rewrite Hs. simpl. rewrite Hm. simpl. flatten_trace. reflexivity.
Qed.

(** X5.  Whatever the arguments and the flags, the function never asks
    [mix_latent_gp] for a full-covariance mode and never asks [sample_mvn]
    for another tag than ["diag"]: every call to [mix_latent_gp] in a run is
    on the kernel's [W] with both flags false, and every call to [sample_mvn]
    carries ["diag"] and the caller's [num_samples]. *)
Theorem collaborators_called_in_diag_mode_only
    (Xnew : pyobj Tensor) (feat : pyobj Feature) (kern : pyobj Kernel)
    (f : pyobj Tensor) (full_cov full_output_cov : bool)
    (q_sqrt : option Tensor) (white : bool) (num_samples : option nat)
    (s : state) :
  exists out s' evs,
    _sample_conditional Xnew feat kern f full_cov full_output_cov
                        q_sqrt white num_samples s = (out, s') /\
    trace s' = trace s ++ evs /\
    (forall W_ mu var fc foc, In (EvMixLatentGp W_ mu var fc foc) evs ->
       W_ = W (value kern) /\ fc = false /\ foc = false) /\
    (forall mu var tag n, In (EvSampleMvn mu var tag n) evs ->
       tag = "diag" /\ n = num_samples).
Proof.
  assert (Hall : forall evs : list event,
            Forall (fun ev =>
                      match ev with
                      | EvMixLatentGp W_ _ _ fc foc =>
                          W_ = W (value kern) /\ fc = false /\ foc = false
                      | EvSampleMvn _ _ tag n => tag = "diag" /\ n = num_samples
                      | _ => True
                      end) evs ->
            (forall W_ mu var fc foc, In (EvMixLatentGp W_ mu var fc foc) evs ->
               W_ = W (value kern) /\ fc = false /\ foc = false) /\
            (forall mu var tag n, In (EvSampleMvn mu var tag n) evs ->
               tag = "diag" /\ n = num_samples)).
  { intros evs Hf. rewrite Forall_forall in Hf.
    split; intros; match goal with Hin : In _ _ |- _ => exact (Hf _ Hin) end. }
  open_run.
  destruct full_cov; simpl.
  { do 3 eexists. split; [reflexivity|]. split; [reflexivity|].
    apply Hall. repeat constructor. }
  destruct full_output_cov; simpl.
  { do 3 eexists. flatten_trace. split; [reflexivity|]. split; [reflexivity|].
    apply Hall. repeat constructor. }
  destruct (dispatch conditional independent_signature) as [ind|]; simpl.
  2:{ do 3 eexists. flatten_trace. split; [reflexivity|]. split; [reflexivity|].
      apply Hall. repeat constructor. }
  destruct (ind Xnew feat kern f white q_sqrt) as [[g_mu g_var]|e]; simpl.
  2:{ do 3 eexists. flatten_trace. split; [reflexivity|]. split; [reflexivity|].
      apply Hall. repeat constructor. }
  destruct (sample_mvn g_mu g_var "diag" num_samples (rng s))
    as [[g_sample|e] r']; simpl.
  2:{ do 3 eexists. flatten_trace. split; [reflexivity|]. split; [reflexivity|].
      apply Hall. repeat constructor. }
  destruct (mix_latent_gp (W (value kern)) g_mu g_var false false)
    as [[f_mu f_var]|e]; simpl.
  2:{ do 3 eexists. flatten_trace. split; [reflexivity|]. split; [reflexivity|].
      apply Hall. repeat constructor. }
  destruct (tensordot g_sample (W (value kern))) as [f_sample|e]; simpl;
    do 3 eexists; flatten_trace; (split; [reflexivity|]);
    (split; [reflexivity|]); apply Hall; repeat constructor.
Qed.

(** X6.  The returned moments do not depend on the random draw: two returning
    calls on the same [Xnew], [feat], [kern], [f], [white] and [q_sqrt] give
    the same [f_mu] and [f_var], whatever their generator states, earlier
    traces and [num_samples]. *)
Theorem moments_independent_of_sampling
    (Xnew : pyobj Tensor) (feat : pyobj Feature) (kern : pyobj Kernel)
    (f : pyobj Tensor) (fc1 foc1 fc2 foc2 : bool)
    (q_sqrt : option Tensor) (white : bool)
    (n1 n2 : option nat) (s1 s2 s1' s2' : state)
    (sample1 mu1 var1 sample2 mu2 var2 : Tensor) :
  _sample_conditional Xnew feat kern f fc1 foc1 q_sqrt white n1 s1
  = (Ok (sample1, mu1, var1), s1') ->
  _sample_conditional Xnew feat kern f fc2 foc2 q_sqrt white n2 s2
  = (Ok (sample2, mu2, var2), s2') ->
  mu1 = mu2 /\ var1 = var2.
Proof.
  intros R1 R2.
  apply run_inversion in R1.
  destruct R1 as (_ & _ & i1 & gm1 & gv1 & gs1 & D1 & I1 & _ & M1 & _).
  apply run_inversion in R2.
  destruct R2 as (_ & _ & i2 & gm2 & gv2 & gs2 & D2 & I2 & _ & M2 & _).
  rewrite D1 in D2. inversion D2; subst i2.
  rewrite I1 in I2. inversion I2; subst gm2 gv2.
  rewrite M1 in M2. inversion M2. split; reflexivity.
Qed.

(** X7.  A returned sample is a well-formed tensor (as many entries as its
    shape asks for), and its trailing axes are the free axes of the kernel's
    [W], whatever the collaborators returned. *)
Theorem f_sample_well_formed
    (Xnew : pyobj Tensor) (feat : pyobj Feature) (kern : pyobj Kernel)
    (f : pyobj Tensor) (full_cov full_output_cov : bool)
    (q_sqrt : option Tensor) (white : bool) (num_samples : option nat)
    (s s' : state) (f_sample f_mu f_var : Tensor) :
  _sample_conditional Xnew feat kern f full_cov full_output_cov
                      q_sqrt white num_samples s
  = (Ok (f_sample, f_mu, f_var), s') ->
  wf_tensor f_sample /\
  exists lead, shape f_sample = lead ++ removelast (shape (W (value kern))).
Proof.
  intros Hrun. apply run_inversion in Hrun.
  destruct Hrun as (_ & _ & ind & g_mu & g_var & g_sample & _ & _ & _ & _ & Ht & _).
  apply contract_last_wf in Ht. destruct Ht as [Hwf Hsh].
  split; [exact Hwf|]. eexists. exact Hsh.
Qed.

(** X8.  When the last axis of the latent sample and the last axis of the
    kernel's [W] have different extents, the call never returns a sample: it
    raises, with the exception of [mix_latent_gp] if that one raises and
    with the shape error of [tf.tensordot] otherwise, after the draw. *)
Theorem latent_axis_mismatch_never_returns
    (Xnew : pyobj Tensor) (feat : pyobj Feature) (kern : pyobj Kernel)
    (f : pyobj Tensor) (q_sqrt : option Tensor) (white : bool)
    (num_samples : option nat) (s : state) (ind : conditional_fn)
    (g_mu g_var g_sample : Tensor) (r' : rng_state)
    (lead out_axes : list nat) (L L' : nat) :
  dispatch conditional independent_signature = Some ind ->
  ind Xnew feat kern f white q_sqrt = Ok (g_mu, g_var) ->
  sample_mvn g_mu g_var "diag" num_samples (rng s) = (Ok g_sample, r') ->
  shape g_sample = lead ++ [L] ->
  shape (W (value kern)) = out_axes ++ [L'] ->
  L <> L' ->
  exists e s',
    _sample_conditional Xnew feat kern f false false q_sqrt white num_samples s
    = (Raise e, s') /\
    rng s' = r' /\
    (mix_latent_gp (W (value kern)) g_mu g_var false false = Raise e \/
     (e = ShapeMismatchError /\
      In (EvTensordot g_sample (W (value kern))) (trace s'))).
Proof.
  intros Hd Hi Hs Hg HW Hne.
  pose proof (@contract_last_mismatch _ s_mul g_sample (W (value kern))
                lead out_axes L L' Hg HW Hne) as Ht.
  fold (tensordot g_sample (W (value kern))) in Ht.
  open_run. rewrite Hd. simpl. rewrite Hi. simpl. rewrite Hs. simpl.
  destruct (mix_latent_gp (W (value kern)) g_mu g_var false false)
    as [[f_mu f_var]|e] eqn:Hm; simpl.
  - rewrite Ht. do 2 eexists. split; [reflexivity|]. split; [reflexivity|].
    right. split; [reflexivity|]. simpl. apply in_or_app. right. left.
    reflexivity.
  - do 2 eexists. split; [reflexivity|]. split; [reflexivity|]. left.
    reflexivity.
Qed.

(** X9.  A call returns a triple exactly when both flags are false, the
    lookup resolves, and the conditional, [sample_mvn], [mix_latent_gp] and
    [tf.tensordot] all return; the triple is then tensordot's result with
    the two results of [mix_latent_gp], and the generator is left as
    [sample_mvn] left it. *)
Theorem returns_exactly_when_all_steps_return
    (Xnew : pyobj Tensor) (feat : pyobj Feature) (kern : pyobj Kernel)
    (f : pyobj Tensor) (full_cov full_output_cov : bool)
    (q_sqrt : option Tensor) (white : bool) (num_samples : option nat)
    (s : state) (f_sample f_mu f_var : Tensor) (r' : rng_state) :
  (exists s',
     _sample_conditional Xnew feat kern f full_cov full_output_cov
                         q_sqrt white num_samples s
     = (Ok (f_sample, f_mu, f_var), s') /\ rng s' = r')
  <->
  (full_cov = false /\ full_output_cov = false /\
   exists ind g_mu g_var g_sample,
     dispatch conditional independent_signature = Some ind /\
     ind Xnew feat kern f white q_sqrt = Ok (g_mu, g_var) /\
     sample_mvn g_mu g_var "diag" num_samples (rng s) = (Ok g_sample, r') /\
     mix_latent_gp (W (value kern)) g_mu g_var false false = Ok (f_mu, f_var) /\
     tensordot g_sample (W (value kern)) = Ok f_sample).
Proof.
  split.
  - intros (s' & Hrun & Hr). apply run_inversion in Hrun.
    destruct Hrun as (Hc & Ho & ind & g_mu & g_var & g_sample
                      & Hd & Hi & Hs & Hm & Ht & _).
    subst r'. split; [exact Hc|]. split; [exact Ho|].
    exists ind, g_mu, g_var, g_sample. auto.
  - intros (-> & -> & ind & g_mu & g_var & g_sample & Hd & Hi & Hs & Hm & Ht).
    eexists. split.
    + open_run. rewrite Hd. simpl. rewrite Hi. simpl. rewrite Hs. simpl.
      rewrite Hm. simpl. rewrite Ht. reflexivity.
    + reflexivity.
Qed.

(** X10.  Whatever the arguments and however the call ends, the random
    generator is used by one call to [sample_mvn] at most: its final state is
    the initial one, or the one that the draw with tag ["diag"] and the
    caller's [num_samples] left. *)
Theorem generator_used_by_one_draw_at_most
    (Xnew : pyobj Tensor) (feat : pyobj Feature) (kern : pyobj Kernel)
    (f : pyobj Tensor) (full_cov full_output_cov : bool)
    (q_sqrt : option Tensor) (white : bool) (num_samples : option nat)
    (s : state) :
  let s' := snd (_sample_conditional Xnew feat kern f full_cov full_output_cov
                                     q_sqrt white num_samples s) in
  rng s' = rng s \/
  exists ind g_mu g_var,
    dispatch conditional independent_signature = Some ind /\
    ind Xnew feat kern f white q_sqrt = Ok (g_mu, g_var) /\
    rng s' = snd (sample_mvn g_mu g_var "diag" num_samples (rng s)).
Proof.
  open_run.
  destruct full_cov; simpl; [left; reflexivity|].
  destruct full_output_cov; simpl; [left; reflexivity|].
  destruct (dispatch conditional independent_signature) as [ind|] eqn:Hd; simpl;
    [|left; reflexivity].
  destruct (ind Xnew feat kern f white q_sqrt) as [[g_mu g_var]|e] eqn:Hi; simpl;
    [|left; reflexivity].
  right. exists ind, g_mu, g_var. split; [reflexivity|]. split; [exact Hi|].
  destruct (sample_mvn g_mu g_var "diag" num_samples (rng s))
    as [[g_sample|e] r']; simpl; [|reflexivity].
  destruct (mix_latent_gp (W (value kern)) g_mu g_var false false)
    as [[f_mu f_var]|e]; simpl; [|reflexivity].
  destruct (tensordot g_sample (W (value kern))); reflexivity.
Qed.

End RunFacts.

(** ** The further facts at the concrete environments *)

Lemma not_implemented_message_witness :
  fst (@_sample_conditional Z_scalar gp_hierarchy gp_objects gp_collaborators
         example_Xnew example_feat example_kern example_f
         false true None false (Some 2) example_state)
  = Raise (NotImplementedError "full_output_cov not yet implemented").
Proof.
  apply (@not_implemented_message Z_scalar gp_hierarchy gp_objects
           gp_collaborators example_Xnew example_feat example_kern example_f
           false true).
  reflexivity.
Defined.

Lemma conditional_error_propagates_witness :
  @_sample_conditional Z_scalar gp_hierarchy gp_objects fallback_collaborators
    example_Xnew example_feat example_kern example_f
    false false None true None example_state
  = (Raise (CollaboratorError "fallback"),
     {| trace := trace example_state ++
          [EvLogDebug "(MixedKernelSharedMof, MixedKernelSeparateMof), SeparateMixedMok";
           EvDispatch independent_signature;
           EvConditional fallback_conditional example_Xnew example_feat
                         example_kern example_f true None];
        rng := rng example_state |}).
Proof.
  apply (@conditional_error_propagates Z_scalar gp_hierarchy gp_objects
           fallback_collaborators); reflexivity.
Defined.

Lemma sample_mvn_error_propagates_witness :
  @_sample_conditional Z_scalar gp_hierarchy gp_objects gp_collaborators
    mismatched_Xnew example_feat example_kern example_f
    false false None true None example_state
  = (Raise ShapeMismatchError,
     {| trace := trace example_state ++
          [EvLogDebug "(MixedKernelSharedMof, MixedKernelSeparateMof), SeparateMixedMok";
           EvDispatch independent_signature;
           EvConditional example_conditional mismatched_Xnew example_feat
                         example_kern example_f true None;
           EvSampleMvn example_g_mu (value mismatched_Xnew) "diag" None];
        rng := example_noise |}).
Proof.
  apply (@sample_mvn_error_propagates Z_scalar gp_hierarchy gp_objects
           gp_collaborators); reflexivity.
Defined.

Lemma mix_latent_gp_error_propagates_witness :
  @_sample_conditional Z_scalar gp_hierarchy gp_objects gp_collaborators
    example_Xnew example_feat wide_kern example_f
    false false None true None example_state
  = (Raise ShapeMismatchError,
     {| trace := trace example_state ++
          [EvLogDebug "(MixedKernelSharedMof, MixedKernelSeparateMof), SeparateMixedMok";
           EvDispatch independent_signature;
           EvConditional example_conditional example_Xnew example_feat
                         wide_kern example_f true None;
           EvSampleMvn example_g_mu example_g_var "diag" None;
           EvMixLatentGp (W (value wide_kern)) example_g_mu example_g_var
                         false false];
        rng := @mkNoise Z_scalar (fun n => (Z.of_nat n mod 5 - 2)%Z) 6 |}).
Proof.
  apply (@mix_latent_gp_error_propagates Z_scalar gp_hierarchy gp_objects
           gp_collaborators example_Xnew example_feat wide_kern example_f
           None true None example_state example_conditional
           example_g_mu example_g_var example_single_sample); reflexivity.
Defined.

Lemma moments_independent_of_sampling_witness :
  example_f_sample <> later_f_sample /\
  example_f_mu = example_f_mu /\ example_f_var = example_f_var.
Proof.
  split; [discriminate|].
  apply (@moments_independent_of_sampling Z_scalar gp_hierarchy gp_objects
           gp_collaborators example_Xnew example_feat example_kern example_f
           false false false false None true (Some 2) None
           example_state later_state
           (snd (@_sample_conditional Z_scalar gp_hierarchy gp_objects
                   gp_collaborators example_Xnew example_feat example_kern
                   example_f false false None true (Some 2) example_state))
           (snd (@_sample_conditional Z_scalar gp_hierarchy gp_objects
                   gp_collaborators example_Xnew example_feat example_kern
                   example_f false false None true None later_state))
           example_f_sample example_f_mu example_f_var
           later_f_sample example_f_mu example_f_var); reflexivity.
Defined.

Lemma f_sample_well_formed_witness :
  wf_tensor example_f_sample /\
  exists lead,
    shape example_f_sample = lead ++ removelast (shape (W (value example_kern))).
Proof.
  apply (@f_sample_well_formed Z_scalar gp_hierarchy gp_objects
           gp_collaborators example_Xnew example_feat example_kern example_f
           false false None true (Some 2) example_state
           (snd (@_sample_conditional Z_scalar gp_hierarchy gp_objects
                   gp_collaborators example_Xnew example_feat example_kern
                   example_f false false None true (Some 2) example_state))
           example_f_sample example_f_mu example_f_var).
  reflexivity.
Defined.

Lemma latent_axis_mismatch_never_returns_witness :
  exists e s',
    @_sample_conditional Z_scalar gp_hierarchy gp_objects gp_collaborators
      example_Xnew example_feat wide_kern example_f
      false false None true None example_state
    = (Raise e, s') /\
    rng s' = @mkNoise Z_scalar (fun n => (Z.of_nat n mod 5 - 2)%Z) 6 /\
    (@mix_latent_gp _ _ _ gp_collaborators (W (value wide_kern))
                    example_g_mu example_g_var false false = Raise e \/
     (e = ShapeMismatchError /\
      In (EvTensordot example_single_sample (W (value wide_kern))) (trace s'))).
Proof.
  apply (@latent_axis_mismatch_never_returns Z_scalar gp_hierarchy gp_objects
           gp_collaborators example_Xnew example_feat wide_kern example_f
           None true None example_state example_conditional
           example_g_mu example_g_var example_single_sample
           (@mkNoise Z_scalar (fun n => (Z.of_nat n mod 5 - 2)%Z) 6)
           [3] [2] 2 3); try reflexivity.
  discriminate.
Defined.
